(** * A shallow embedding of [scraper.py]

    The development follows the source file top to bottom:
    strings and the regular expressions, the parsed document tree
    and its [find], the field extractor [_set_dict_value], [get_rows],
    [get_book_data], the page-count resolver, the page worker and the
    orchestrator [scrape_books].

    Modelling conventions.
    - A Python [str] is a [string] whose characters are read as code
      points below 256; the character classes below ([\d], whitespace,
      [lower]) are Python's restricted to that range.
    - A Python [dict] is an association list in insertion order with
      unique keys; assignment to an existing key keeps its position.
    - A Python [float] obtained from a decimal literal is represented by
      the rational the literal denotes (in lowest terms): it stands for
      the double nearest to it (a literal beyond the range of doubles
      gives [inf], which the rational does not show).  [int] is
      unbounded, as in Python, but [int(s)] refuses a string of more than
      4300 digits, the interpreter's default limit.
    - An exception is an explicit outcome [Raise e]; code that mutates a
      dictionary threads the dictionary and returns it next to the
      outcome, so the store is known also when a call raises. *)

From Stdlib Require Import List String Ascii ZArith QArith Bool Lia.
From Stdlib Require Import Permutation DecimalString.
Import ListNotations.

Set Warnings "-register-all".

Local Open Scope Z_scope.
Local Open Scope list_scope.
Local Open Scope string_scope.

(** ** Exceptions and outcomes *)

Inductive exn : Type :=
| ConnectionError   (* [requests.get] could not obtain a response *)
| HTTPError         (* [raise_for_status] on a 4xx or 5xx status *)
| ValueError        (* [float] on a malformed literal *)
| KeyError          (* a missing attribute *)
| IndexError.       (* a list index out of range *)

Inductive res (A : Type) : Type :=
| Ok (a : A)
| Raise (e : exn).
Arguments Ok {A} a.
Arguments Raise {A} e.

Definition res_bind {A B} (m : res A) (k : A -> res B) : res B :=
  match m with
  | Ok a => k a
  | Raise e => Raise e
  end.

(** ** Characters and strings *)

Module Py.

Definition ord (c : ascii) : N := N_of_ascii c.

(** [\d] of [re] on a [str] pattern, below code point 256. *)
Definition is_digit (c : ascii) : bool :=
  (N.leb 48 (ord c) && N.leb (ord c) 57)%bool.

(** [str.isspace] below code point 256: TAB..CR, FS..US, SPACE, NEL, NBSP. *)
Definition is_space (c : ascii) : bool :=
  let n := ord c in
  ((N.leb 9 n && N.leb n 13) || (N.leb 28 n && N.leb n 32)
   || N.eqb n 133 || N.eqb n 160)%bool.

(** [str.lower] on one character below code point 256: A..Z and the
    Latin-1 capitals (all of 192..222 but the multiplication sign). *)
Definition lower_char (c : ascii) : ascii :=
  let n := ord c in
  if ((N.leb 65 n && N.leb n 90)
      || (N.leb 192 n && N.leb n 222 && negb (N.eqb n 215)))%bool
  then ascii_of_N (n + 32) else c.

Fixpoint lower (s : string) : string :=
  match s with
  | EmptyString => EmptyString
  | String c t => String (lower_char c) (lower t)
  end.

Fixpoint lstrip (s : string) : string :=
  match s with
  | EmptyString => EmptyString
  | String c t => if is_space c then lstrip t else s
  end.

Fixpoint rstrip (s : string) : string :=
  match s with
  | EmptyString => EmptyString
  | String c t =>
      match rstrip t with
      | EmptyString => if is_space c then EmptyString else String c EmptyString
      | t' => String c t'
      end
  end.

(** [str.strip()] with no argument. *)
Definition strip (s : string) : string := rstrip (lstrip s).

Fixpoint take_while (p : ascii -> bool) (s : string) : string :=
  match s with
  | EmptyString => EmptyString
  | String c t => if p c then String c (take_while p t) else EmptyString
  end.

Fixpoint drop_while (p : ascii -> bool) (s : string) : string :=
  match s with
  | EmptyString => EmptyString
  | String c t => if p c then drop_while p t else s
  end.

Fixpoint skip (n : nat) (s : string) : string :=
  match n, s with
  | O, _ => s
  | S n', String _ t => skip n' t
  | S _, EmptyString => EmptyString
  end.

Fixpoint all_chars (p : ascii -> bool) (s : string) : bool :=
  match s with
  | EmptyString => true
  | String c t => (p c && all_chars p t)%bool
  end.

(** [c in s] for a one-character [c]. *)
Fixpoint has_char (c : ascii) (s : string) : bool :=
  match s with
  | EmptyString => false
  | String d t => (Ascii.eqb c d || has_char c t)%bool
  end.

(** [sub in s]. *)
Fixpoint contains (sub s : string) : bool :=
  (String.prefix sub s
   || match s with
      | EmptyString => false
      | String _ t => contains sub t
      end)%bool.

(** [sep.join(l)]. *)
Fixpoint join (sep : string) (l : list string) : string :=
  match l with
  | [] => EmptyString
  | [x] => x
  | x :: t => (x ++ sep ++ join sep t)%string
  end.

Definition digit_val (c : ascii) : Z := Z.of_N (ord c) - 48.

Fixpoint int_acc (acc : Z) (s : string) : Z :=
  match s with
  | EmptyString => acc
  | String c t => int_acc (10 * acc + digit_val c) t
  end.

(** The integer a string of digits spells. *)
Definition int_value (s : string) : Z := int_acc 0 s.

(** [sys.int_info.default_max_str_digits]. *)
Definition max_str_digits : nat := 4300.

(** [int(s)] for a non-empty string of digits: the conversion raises
    [ValueError] when the string has more digits than the limit, leading
    zeros included. *)
Definition int (s : string) : res Z :=
  if Nat.ltb max_str_digits (String.length s)
  then Raise ValueError
  else Ok (int_value s).

(** [str(n)] for an [int]. *)
Definition str (n : Z) : string := NilZero.string_of_int (Z.to_int n).

(** [t.index(x)] made total: [None] stands for [x not in t]. *)
Fixpoint index (x : string) (t : list string) : option Z :=
  match t with
  | [] => None
  | y :: t' => if String.eqb y x then Some 0
               else option_map Z.succ (index x t')
  end.

(** [x in t] for a tuple of strings. *)
Definition mem (x : string) (t : list string) : bool :=
  existsb (String.eqb x) t.

End Py.

(** ** Values and dictionaries *)

Inductive pyval : Type :=
| VStr (s : string)
| VInt (z : Z)
| VFloat (q : Q)
| VDict (d : list (string * pyval)).

Definition dict : Type := list (string * pyval).

(** [d.get(k)]. *)
Fixpoint dict_get (d : dict) (k : string) : option pyval :=
  match d with
  | [] => None
  | (k', v) :: t => if String.eqb k' k then Some v else dict_get t k
  end.

(** [d[k] = v]: an existing key keeps its place, a new one goes last. *)
Fixpoint dict_set (d : dict) (k : string) (v : pyval) : dict :=
  match d with
  | [] => [(k, v)]
  | (k', v') :: t =>
      if String.eqb k' k then (k', v) :: t else (k', v') :: dict_set t k v
  end.

Definition dict_keys (d : dict) : list string := map fst d.

(** ** Computations on a dictionary that may raise *)

Definition Exec (A : Type) : Type := dict -> dict * res A.

Definition ret {A} (a : A) : Exec A := fun d => (d, Ok a).
Definition throw {A} (e : exn) : Exec A := fun d => (d, Raise e).
Definition bind {A B} (m : Exec A) (k : A -> Exec B) : Exec B :=
  fun d =>
    match m d with
    | (d', Ok a) => k a d'
    | (d', Raise e) => (d', Raise e)
    end.
Definition store (k : string) (v : pyval) : Exec unit :=
  fun d => (dict_set d k v, Ok tt).
Definition lift {A} (r : res A) : Exec A := fun d => (d, r).

Notation "x <- m ;; k" := (bind m (fun x => k))
  (at level 61, m at next level, right associativity).
Notation "m ;;; k" := (bind m (fun _ => k))
  (at level 61, right associativity).

(** ** The regular expressions of the module *)

Definition is_number_char (c : ascii) : bool :=
  (Py.is_digit c || Ascii.eqb c ".")%bool.

(** [re.search(_number_pattern, s)] with [_number_pattern = '[\d.]+']:
    the leftmost maximal run of digits and points; the result is
    [match.group()]. *)
Definition _number_pattern (s : string) : option string :=
  match Py.drop_while (fun c => negb (is_number_char c)) s with
  | EmptyString => None
  | rest => Some (Py.take_while is_number_char rest)
  end.

(** [_rating_pattern.search(s)] for ['star-rating .*'] as a truth value:
    [.*] also matches the empty string, so the search succeeds exactly
    when the literal prefix occurs somewhere in [s]. *)
Definition _rating_pattern (s : string) : bool :=
  Py.contains "star-rating " s.

(** [_main_data_pattern.search(s)] for ['.* product_main']: a search may
    start at the blank itself, with [.*] empty. *)
Definition _main_data_pattern (s : string) : bool :=
  Py.contains " product_main" s.

(** [re.search('of (\d+)', s)]: the leftmost position where ["of "] is
    followed by a digit; the result is [match.group(1)], the maximal run
    of digits there. *)
Fixpoint pages_pattern (s : string) : option string :=
  match s with
  | EmptyString => None
  | String _ t =>
      if String.prefix "of " s then
        match Py.take_while Py.is_digit (Py.skip 3 s) with
        | EmptyString => pages_pattern t
        | ds => Some ds
        end
      else pages_pattern t
  end.

(** [float(m)] for a run [m] of digits and points that holds a point:
    Python accepts it when it has exactly one point and at least one
    digit, and raises [ValueError] otherwise; there is no limit on the
    number of digits here. *)
Definition float (m : string) : res Q :=
  let ip := Py.take_while Py.is_digit m in
  let fp := Py.skip 1 (Py.drop_while Py.is_digit m) in
  if (Py.all_chars Py.is_digit fp
      && negb (String.eqb (ip ++ fp) EmptyString))%bool
  then Ok (Qred (Qmake (Py.int_value (ip ++ fp))
                       (Z.to_pos (10 ^ Z.of_nat (String.length fp)))))
  else Raise ValueError.

(** ** The parsed document (the [bs4] boundary)

    A [PageElement] is a string of the document or a tag.  Of a tag's
    attributes the program reads only [class] (which the HTML parser
    delivers as the list of its blank-separated tokens) and [href]. *)

Inductive PageElement : Type :=
| NavigableString (s : string)
| Tag (name : string) (class_ : option (list string))
      (href : option string) (contents : list PageElement).

(** [element.text]: the strings below the element, in document order. *)
Fixpoint text (e : PageElement) : string :=
  match e with
  | NavigableString s => s
  | Tag _ _ _ kids =>
      (fix go (ks : list PageElement) : string :=
         match ks with
         | [] => EmptyString
         | k :: ks' => (text k ++ go ks')%string
         end) kids
  end.

(** The elements strictly below [e], in document order. *)
Fixpoint descendants (e : PageElement) : list PageElement :=
  match e with
  | NavigableString _ => []
  | Tag _ _ _ kids =>
      (fix go (ks : list PageElement) : list PageElement :=
         match ks with
         | [] => []
         | k :: ks' => k :: (descendants k ++ go ks')%list
         end) kids
  end.

(** The [class_] argument of [get_tag]: a string or a compiled pattern,
    the latter given by its [search] as a truth value. *)
Inductive class_arg : Type :=
| CStr (s : string)
| CPattern (search : string -> bool).

(** Python truthiness of a [class_arg]: only the empty string is false. *)
Definition truthy (c : class_arg) : bool :=
  match c with
  | CStr s => negb (String.eqb s EmptyString)
  | CPattern _ => true
  end.

(** How [bs4] matches the [class] attribute against the [class_] keyword.
    - [class_=None] selects the tags that have no [class] attribute; the
      repository's own test relies on it: the description it expects is
      the text of the first paragraph without a class, which comes after
      three classed paragraphs of the product block.
    - A string or a pattern is tried on each token and then on the
      tokens joined by single blanks; a tag without the attribute never
      matches. *)
Definition class_matches (class_ : option class_arg)
           (attr : option (list string)) : bool :=
  match class_, attr with
  | None, None => true
  | None, Some _ => false
  | Some _, None => false
  | Some (CStr s), Some toks =>
      (existsb (fun t => String.eqb t s) toks
       || String.eqb (Py.join " " toks) s)%bool
  | Some (CPattern p), Some toks =>
      (existsb p toks || p (Py.join " " toks))%bool
  end.

Definition tag_matches (tag_name : string) (class_ : option class_arg)
           (e : PageElement) : bool :=
  match e with
  | NavigableString _ => false
  | Tag n c _ _ => (String.eqb n tag_name && class_matches class_ c)%bool
  end.

(** [context.find(tag_name, class_=...)]. *)
Definition find (context : PageElement) (tag_name : string)
           (class_ : option class_arg) : option PageElement :=
  List.find (tag_matches tag_name class_) (descendants context).

(** [context.find_all(tag_name)]. *)
Definition find_all (context : PageElement) (tag_name : string)
  : list PageElement :=
  filter (fun e => match e with
                   | NavigableString _ => false
                   | Tag n _ _ _ => String.eqb n tag_name
                   end) (descendants context).

(** [element['class']] and [link['href']]. *)
Definition getitem_class (e : PageElement) : res (list string) :=
  match e with
  | Tag _ (Some toks) _ _ => Ok toks
  | _ => Raise KeyError
  end.

Definition getitem_href (e : PageElement) : res string :=
  match e with
  | Tag _ _ (Some h) _ => Ok h
  | _ => Raise KeyError
  end.

(** [l[i]] on a list. *)
Definition getitem {A} (l : list A) (i : nat) : res A :=
  match nth_error l i with
  | Some x => Ok x
  | None => Raise IndexError
  end.

(** ** [get_tag] *)

Definition get_tag (context : PageElement) (tag_name : string)
           (class_name : class_arg) : option PageElement :=
  if truthy class_name
  then find context tag_name (Some class_name)
  else find context tag_name None.

(** The default [class_name='']. *)
Definition no_class : class_arg := CStr EmptyString.

(** ** [_set_dict_value]

    A [Tag] is always true in a condition, so [not element] holds for
    [None] only.  The dictionary [data] is threaded: the result is the
    dictionary after the call and the way the call ended. *)

Definition stars_count : list string :=
  ["zero"; "one"; "two"; "three"; "four"; "five"].

Definition _set_dict_value (data : dict) (key : string)
           (element : option PageElement) (data_type : string)
  : dict * res unit :=
  match element with
  | None => ret tt data
  | Some el =>
      if negb (Py.mem data_type ["text"; "number"; "rating"]) then
        ret tt data
      else if String.eqb data_type "text" then
        store key (VStr (Py.strip (text el))) data
      else if String.eqb data_type "number" then
        match _number_pattern (text el) with
        | Some m =>
            if Py.has_char "." m
            then (q <- lift (float m) ;; store key (VFloat q)) data
            else (z <- lift (Py.int m) ;; store key (VInt z)) data
        | None => ret tt data
        end
      else if String.eqb data_type "rating" then
        (cls <- lift (getitem_class el) ;;
         tok <- lift (getitem cls 1) ;;
         let rating := Py.lower tok in
         if Py.mem rating stars_count
         then match Py.index rating stars_count with
              | Some i => store key (VInt i)
              | None => throw ValueError
              end
         else ret tt) data
      else ret tt data
  end.

(** ** [get_rows] *)

(** One turn of the loop body on the dictionary [rows]. *)
Definition get_rows_step (row : PageElement) : Exec unit :=
  fun rows =>
    let key := get_tag row "th" no_class in
    let value := get_tag row "td" no_class in
    match key with
    | Some k => _set_dict_value rows (text k) value "text"
    | None => ret tt rows
    end.

Fixpoint for_each {A} (body : A -> Exec unit) (l : list A) : Exec unit :=
  match l with
  | [] => ret tt
  | x :: t => body x ;;; for_each body t
  end.

Definition get_rows (parent : PageElement) : res dict :=
  match for_each get_rows_step (find_all parent "tr") [] with
  | (rows, Ok _) => Ok rows
  | (_, Raise e) => Raise e
  end.

(** ** The network *)

(** What [requests.get(url)] yields: no response at all, or a response
    with its status code and the tree [BeautifulSoup] parses from its
    body. *)
Inductive reply : Type :=
| Unreachable
| Response (status_code : Z) (soup : PageElement).

Definition web : Type := string -> reply.

Definition requests_get (w : web) (url : string) : res (Z * PageElement) :=
  match w url with
  | Unreachable => Raise ConnectionError
  | Response st doc => Ok (st, doc)
  end.

(** [response.raise_for_status()]: raises for 4xx and 5xx. *)
Definition raise_for_status (status_code : Z) : res unit :=
  if (Z.leb 400 status_code && Z.ltb status_code 600)%bool
  then Raise HTTPError else Ok tt.

(** ** [get_book_data] *)

Definition default_data : dict :=
  [ ("title", VStr ""); ("price", VInt 0); ("rating", VInt 0);
    ("available", VInt 0); ("description", VStr "");
    ("additional_info", VDict []) ].

(** The part of [get_book_data] after the page has been parsed. *)
Definition fill_book_data (soup : PageElement) : Exec unit :=
  match get_tag soup "article" (CStr "product_page") with
  | None => ret tt
  | Some data_root =>
      match get_tag data_root "div" (CPattern _main_data_pattern) with
      | None => ret tt
      | Some main_data =>
          let title_elem := get_tag main_data "h1" no_class in
          let description_elem := get_tag data_root "p" no_class in
          let rating_elem :=
            get_tag main_data "p" (CPattern _rating_pattern) in
          let price_elem := get_tag main_data "p" (CStr "price_color") in
          let available_elem :=
            get_tag main_data "p" (CStr "instock availability") in
          (fun d => _set_dict_value d "title" title_elem "text") ;;;
          (fun d => _set_dict_value d "description" description_elem "text") ;;;
          (fun d => _set_dict_value d "price" price_elem "number") ;;;
          (fun d => _set_dict_value d "available" available_elem "number") ;;;
          (fun d => _set_dict_value d "rating" rating_elem "rating") ;;;
          match get_tag data_root "table" (CStr "table table-striped") with
          | Some table =>
              rows <- lift (get_rows table) ;;
              store "additional_info" (VDict rows)
          | None => ret tt
          end
      end
  end.

Definition get_book_data (w : web) (book_url : string) : res dict :=
  res_bind (requests_get w book_url) (fun '(status_code, soup) =>
  res_bind (raise_for_status status_code) (fun _ =>
  match fill_book_data soup default_data with
  | (data, Ok _) => Ok data
  | (_, Raise e) => Raise e
  end)).

(** ** Catalogue pages *)

Definition _root_url : string := "https://books.toscrape.com/catalogue/".

Definition page_url (page_number : Z) : string :=
  _root_url ++ "page-" ++ Py.str page_number ++ ".html".

Definition _get_page_soup (w : web) (page_number : Z) : res PageElement :=
  res_bind (requests_get w (page_url page_number)) (fun '(status_code, soup) =>
  res_bind (raise_for_status status_code) (fun _ => Ok soup)).

(** Only the fetch is inside the [try]; the conversion of the digits is
    not, so its [ValueError] leaves the function. *)
Definition _get_pages_count (w : web) : res Z :=
  match _get_page_soup w 1 with
  | Raise _ => Ok 0
  | Ok soup =>
      match get_tag soup "li" (CStr "current") with
      | None => Ok 0
      | Some counter_elem =>
          match pages_pattern (text counter_elem) with
          | Some group1 => Py.int group1
          | None => Ok 0
          end
      end
  end.

(** ** [_parse_page]

    A page worker only appends to the shared list, and what it appends
    does not depend on the list; it is modelled by the records it appends,
    in order, and the way it ends.  The progress bar is an observer and
    is left out. *)

Fixpoint parse_headings (w : web) (headings : list PageElement)
  : list dict * res unit :=
  match headings with
  | [] => ([], Ok tt)
  | heading :: rest =>
      match get_tag heading "a" no_class with
      | None => parse_headings w rest
      | Some link =>
          match getitem_href link with
          | Raise e => ([], Raise e)
          | Ok href =>
              if String.eqb href EmptyString then parse_headings w rest
              else
                match get_book_data w (_root_url ++ href) with
                | Raise e => ([], Raise e)
                | Ok book =>
                    let '(books, outcome) := parse_headings w rest in
                    (book :: books, outcome)
                end
          end
      end
  end.

Definition _parse_page (w : web) (page_number : Z) : list dict * res unit :=
  match _get_page_soup w page_number with
  | Raise _ => ([], Ok tt)
  | Ok soup =>
      match get_tag soup "ol" (CStr "row") with
      | None => ([], Ok tt)
      | Some books_container =>
          parse_headings w (find_all books_container "h3")
      end
  end.

(** ** Threads

    [threading.Thread] runs its target and ends the thread when the
    target raises: the exception reaches neither [start] nor [join].  Of
    a worker only its appends remain. *)
Definition thread_run (worker : list dict * res unit) : list dict :=
  fst worker.

(** The order in which the appends of concurrently running workers reach
    the shared list: any merge that keeps each worker's own order. *)
Inductive Interleave {A : Type} : list (list A) -> list A -> Prop :=
| Interleave_done ls :
    Forall (fun l => l = []) ls -> Interleave ls []
| Interleave_step ls1 x l ls2 m :
    Interleave (ls1 ++ l :: ls2)%list m ->
    Interleave (ls1 ++ (x :: l) :: ls2)%list (x :: m).

(** ** Files and JSON *)

Definition files : Type := string -> option string.

(** [open(path, 'w')] followed by one [write]: the old content is gone. *)
Definition write_file (fs : files) (path content : string) : files :=
  fun p => if String.eqb p path then Some content else fs p.

(** [os.path.join(a, b)] on POSIX for a relative [b]. *)
Definition path_join (a b : string) : string :=
  match a with
  | EmptyString => b
  | _ => if String.eqb (Py.skip (String.length a - 1) a) "/"
         then a ++ b else a ++ "/" ++ b
  end.

Module Json.

Definition nl : string := String (ascii_of_N 10) EmptyString.

Fixpoint spaces (n : nat) : string :=
  match n with
  | O => EmptyString
  | S n' => String " " (spaces n')
  end.

Definition newline_indent (level : nat) : string :=
  nl ++ spaces (4 * level).

Definition hex_digit (n : N) : ascii :=
  if N.ltb n 10 then ascii_of_N (48 + n) else ascii_of_N (87 + n).

(** One character under [ensure_ascii=True]. *)
Definition escape_char (c : ascii) : string :=
  let n := Py.ord c in
  if N.eqb n 34 then "\" ++ String c EmptyString
  else if N.eqb n 92 then "\\"
  else if N.eqb n 10 then "\n"
  else if N.eqb n 13 then "\r"
  else if N.eqb n 9 then "\t"
  else if N.eqb n 8 then "\b"
  else if N.eqb n 12 then "\f"
  else if (N.leb 32 n && N.leb n 126)%bool then String c EmptyString
  else "\u00" ++ String (hex_digit (N.div n 16))
                        (String (hex_digit (N.modulo n 16)) EmptyString).

Fixpoint escape (s : string) : string :=
  match s with
  | EmptyString => EmptyString
  | String c t => escape_char c ++ escape t
  end.

Definition quote : string := String (ascii_of_N 34) EmptyString.

Definition encode_string (s : string) : string :=
  quote ++ escape s ++ quote.

Section Dumps.

(** [float.__repr__], the shortest literal that reads back as the same
    double, is taken as given. *)
Variable float_repr : Q -> string.

(** [json.dumps(v, indent=4)] for [v] nested [level] deep. *)
Fixpoint dumps_val (level : nat) (v : pyval) : string :=
  match v with
  | VStr s => encode_string s
  | VInt z => Py.str z
  | VFloat q => float_repr q
  | VDict [] => "{}"
  | VDict d =>
      "{" ++ newline_indent (S level)
      ++ (fix items (l : list (string * pyval)) : string :=
            match l with
            | [] => EmptyString
            | (k, x) :: t =>
                encode_string k ++ ": " ++ dumps_val (S level) x
                ++ match t with
                   | [] => EmptyString
                   | _ => "," ++ newline_indent (S level) ++ items t
                   end
            end) d
      ++ newline_indent level ++ "}"
  end.

Fixpoint dumps_items (l : list dict) : string :=
  match l with
  | [] => EmptyString
  | x :: t =>
      dumps_val 1 (VDict x)
      ++ match t with
         | [] => EmptyString
         | _ => "," ++ newline_indent 1 ++ dumps_items t
         end
  end.

(** [json.dumps(books_data, indent=4)]. *)
Definition dumps (books_data : list dict) : string :=
  match books_data with
  | [] => "[]"
  | _ => "[" ++ newline_indent 1 ++ dumps_items books_data
         ++ newline_indent 0 ++ "]"
  end.

End Dumps.

End Json.

(** ** [scrape_books] *)

(** [range(start, stop, step)] for a positive [step]. *)
Fixpoint range_from (n : nat) (start step : Z) : list Z :=
  match n with
  | O => []
  | S n' => start :: range_from n' (start + step) step
  end.

Definition range (start stop step : Z) : list Z :=
  range_from (Z.to_nat ((stop - start + step - 1) / step)) start step.

Definition threads_number : Z := 25.

(** The inner loop that fills [threads]: it stops at the first page
    beyond [pages_count]. *)
Fixpoint batch_pages (shifts : list Z) (page_number pages_count : Z)
  : list Z :=
  match shifts with
  | [] => []
  | shift :: rest =>
      if Z.gtb (page_number + shift) pages_count then []
      else (page_number + shift) :: batch_pages rest page_number pages_count
  end.

Section Crawl.

(** How the workers of the batch that starts at a given page interleave
    their appends; fixed by the scheduler, not by the program. *)
Variable schedule : Z -> list (list dict) -> list dict.

Variable float_repr : Q -> string.

(** [os.path.dirname(os.path.abspath(__file__))]. *)
Variable current_dir : string.

(** One turn of the outer loop: start the batch, join it. *)
Definition run_batch (w : web) (pages_count : Z) (books_data : list dict)
           (page_number : Z) : list dict :=
  let threads :=
    map (fun p => _parse_page w p)
        (batch_pages (range 0 threads_number 1) page_number pages_count) in
  (books_data ++ schedule page_number (map thread_run threads))%list.

Definition file_path : string := path_join current_dir "books_data.txt".

(** The result is what the call returns, or the exception that leaves
    it, next to the files after the call. *)
Definition scrape_books (w : web) (is_save : bool) (fs : files)
  : res (list dict) * files :=
  match _get_pages_count w with
  | Raise e => (Raise e, fs)
  | Ok pages_count =>
      let books_data :=
        fold_left (run_batch w pages_count)
                  (range 1 (pages_count + 1) threads_number) [] in
      if is_save
      then (Ok books_data,
            write_file fs file_path (Json.dumps float_repr books_data))
      else (Ok books_data, fs)
  end.

End Crawl.

(** ** Notions the statements below use *)

(** The kind of value each decoding mode writes. *)
Definition value_of_mode (data_type : string) (v : pyval) : Prop :=
  match v with
  | VStr _ => data_type = "text"
  | VInt z => data_type = "number" \/ (data_type = "rating" /\ 0 <= z <= 5)
  | VFloat _ => data_type = "number"
  | VDict _ => False
  end.

Definition is_str (v : pyval) : Prop :=
  match v with VStr _ => True | _ => False end.

Definition is_number (v : pyval) : Prop :=
  match v with VInt _ | VFloat _ => True | _ => False end.

Definition is_rating (v : pyval) : Prop :=
  match v with VInt z => 0 <= z <= 5 | _ => False end.

Definition is_info (v : pyval) : Prop :=
  match v with
  | VDict rows => NoDup (dict_keys rows) /\ Forall (fun kv => is_str (snd kv)) rows
  | _ => False
  end.

(** A Record: the six fields, in the order of the source, each with a
    value of its kind. *)
Definition full_record (data : dict) : Prop :=
  exists title price rating available description info,
    data = [ ("title", title); ("price", price); ("rating", rating);
             ("available", available); ("description", description);
             ("additional_info", info) ]
    /\ is_str title /\ is_number price /\ is_rating rating
    /\ is_number available /\ is_str description /\ is_info info.

(** The first [tag_name] element below [e] that has no [class]
    attribute, and the first one whatever its attributes. *)
Definition first_classless (tag_name : string) (e : PageElement)
  : option PageElement :=
  hd_error (filter (fun x => match x with
                             | Tag n None _ _ => String.eqb n tag_name
                             | _ => false
                             end) (descendants e)).

Definition first_tag (tag_name : string) (e : PageElement)
  : option PageElement :=
  hd_error (find_all e tag_name).

(** The cells of a table row that count: its first header cell without
    a class attribute and its first data cell without a class attribute.
    A cell that carries a class is not one of them. *)
Definition header_cell (row : PageElement) : option PageElement :=
  first_classless "th" row.

Definition data_cell (row : PageElement) : option PageElement :=
  first_classless "td" row.

(** What one row contributes to the mapping: its key and value when it
    has both cells, nothing otherwise. *)
Definition row_entry (row : PageElement) : option (string * pyval) :=
  match header_cell row, data_cell row with
  | Some h, Some c => Some (text h, VStr (Py.strip (text c)))
  | _, _ => None
  end.

(** One row added to the mapping. *)
Definition rows_step (acc : dict) (row : PageElement) : dict :=
  match row_entry row with
  | Some (k, v) => dict_set acc k v
  | None => acc
  end.

(** Following the specification's words: the mapping built by scanning
    the rows in order. *)
Definition rows_mapping (trs : list PageElement) : dict :=
  fold_left rows_step trs [].

(** The rows whose header cell reads [k]. *)
Definition rows_with_header (k : string) (trs : list PageElement)
  : list PageElement :=
  filter (fun row => match header_cell row with
                     | Some h => String.eqb (text h) k
                     | None => false
                     end) trs.

(** The value of the last row that has header [k] and a data cell. *)
Definition last_entry (k : string) (trs : list PageElement) : option pyval :=
  match List.find (fun row => match row_entry row with
                              | Some (k', _) => String.eqb k' k
                              | None => false
                              end) (rev trs) with
  | Some row => option_map snd (row_entry row)
  | None => None
  end.

(** Where a string starts with no character of a class (or is empty). *)
Definition stops (p : ascii -> bool) (s : string) : Prop :=
  match s with
  | EmptyString => True
  | String c _ => p c = false
  end.

(** The node the rating is read from. *)
Definition rating_node (soup : PageElement) : option PageElement :=
  match get_tag soup "article" (CStr "product_page") with
  | None => None
  | Some data_root =>
      match get_tag data_root "div" (CPattern _main_data_pattern) with
      | None => None
      | Some main_data => get_tag main_data "p" (CPattern _rating_pattern)
      end
  end.

(** The containers [get_book_data] works in. *)
Definition containers (soup : PageElement)
  : option (PageElement * PageElement) :=
  match get_tag soup "article" (CStr "product_page") with
  | None => None
  | Some data_root =>
      match get_tag data_root "div" (CPattern _main_data_pattern) with
      | None => None
      | Some main_data => Some (data_root, main_data)
      end
  end.

(** The field each extraction of [get_book_data] writes, with its mode. *)
Definition field_modes : list (string * string) :=
  [ ("title", "text"); ("description", "text"); ("price", "number");
    ("available", "number"); ("rating", "rating") ].

(** The position of the leftmost ["of "] that a digit follows. *)
Fixpoint match_position (s : string) : option nat :=
  match s with
  | EmptyString => None
  | String _ t =>
      if String.prefix "of " s then
        match Py.take_while Py.is_digit (Py.skip 3 s) with
        | EmptyString => option_map S (match_position t)
        | _ => Some O
        end
      else option_map S (match_position t)
  end.

(** Following the specification's words: the pages [1..pages_count]. *)
Definition catalogue_pages (pages_count : Z) : list Z :=
  range 1 (pages_count + 1) 1.

(** The records one page contributes. *)
Definition page_books (w : web) (page_number : Z) : list dict :=
  thread_run (_parse_page w page_number).

(** What an extraction writes, whatever the dictionary and the key:
    the value found, or nothing. *)
Definition extracted (element : option PageElement) (data_type : string)
  : option pyval :=
  dict_get (fst (_set_dict_value [] EmptyString element data_type))
           EmptyString.

(** A run of digits and points that [float] accepts: digits, one point,
    digits, with a digit somewhere. *)
Definition decimal_literal (m : string) : Prop :=
  exists ip fp,
    m = ip ++ "." ++ fp
    /\ Py.all_chars Py.is_digit ip = true
    /\ Py.all_chars Py.is_digit fp = true
    /\ ip ++ fp <> EmptyString.

(** A run of digits and points that numeric mode can convert: with a
    point it is a decimal literal, without one it has no more digits
    than [int] accepts. *)
Definition convertible (m : string) : Prop :=
  (Py.has_char "." m = true -> decimal_literal m)
  /\ (Py.has_char "." m = false ->
      (String.length m <= Py.max_str_digits)%nat).

(** Class tokens as the HTML parser delivers them hold no blank. *)
Definition blank_free (toks : list string) : bool :=
  forallb (fun t => negb (Py.has_char " " t)) toks.

(** [l] occurs in [m] in order, possibly with other elements between. *)
Inductive Subseq {A : Type} : list A -> list A -> Prop :=
| Subseq_nil m : Subseq [] m
| Subseq_skip l x m : Subseq l m -> Subseq l (x :: m)
| Subseq_take l x m : Subseq l m -> Subseq (x :: l) (x :: m).

(** The printable ASCII characters. *)
Definition printable (c : ascii) : bool :=
  (N.leb 32 (Py.ord c) && N.leb (Py.ord c) 126)%bool.

(** The value of a field, or its default when nothing was extracted. *)
Definition or_default (found : option pyval) (default : pyval) : pyval :=
  match found with
  | Some v => v
  | None => default
  end.

(** The schedule that lets the workers of a batch run one after the
    other, in the order they were started. *)
Definition one_by_one : Z -> list (list dict) -> list dict :=
  fun _ contributions => List.concat contributions.

(** ** Sample documents *)

Module Sample.

Definition pound : string := String (ascii_of_N 163) EmptyString.

Definition elem (name : string) (cls : option (list string))
           (kids : list PageElement) : PageElement :=
  Tag name cls None kids.

Definition leaf (name : string) (cls : option (list string)) (s : string)
  : PageElement :=
  Tag name cls None [NavigableString s].

Definition row (h c : string) : PageElement :=
  elem "tr" None [leaf "th" None h; leaf "td" None c].

Definition product_page (price : string) (rating_class : list string)
  : PageElement :=
  elem "article" (Some ["product_page"])
    [ elem "div" (Some ["col-sm-6"; "product_main"])
        [ leaf "h1" None "A Light in the Attic";
          leaf "p" (Some ["price_color"]) price;
          leaf "p" (Some ["instock"; "availability"])
               " In stock (22 available) ";
          leaf "p" (Some rating_class) "" ];
      leaf "p" None " A now-classic collection. ";
      elem "table" (Some ["table"; "table-striped"])
        [ row "UPC" " a897fe39b1053632 ";
          elem "tr" None [leaf "th" None "Tax"];
          elem "tr" None [leaf "td" None "stray"] ] ].

Definition document (body : list PageElement) : PageElement :=
  Tag "[document]" None None body.

Definition book_page : PageElement :=
  document [product_page (pound ++ "51.77") ["star-rating"; "Three"]].

Definition unrated_page : PageElement :=
  document [product_page (pound ++ "51.77") ["star-rating"; "Many"]].

Definition item (href : string) : PageElement :=
  elem "h3" None [Tag "a" None (Some href) [NavigableString "book"]].

Definition catalogue_page (hrefs : list string) : PageElement :=
  document [ elem "ol" (Some ["row"]) (map item hrefs);
             leaf "li" (Some ["current"]) " Page 1 of 1 " ].

Definition book_url : string := _root_url ++ "a-light/index.html".

(** One catalogue page with two items; the first item cannot be fetched. *)
Definition shop : web :=
  fun url =>
    if String.eqb url (page_url 1)
    then Response 200 (catalogue_page ["gone/index.html"; "a-light/index.html"])
    else if String.eqb url book_url then Response 200 book_page
    else Unreachable.

(** One catalogue page with two items, both of which can be fetched. *)
Definition open_shop : web :=
  fun url =>
    if String.eqb url (page_url 1)
    then Response 200 (catalogue_page ["a/index.html"; "b/index.html"])
    else Response 200 book_page.

(** A site that does not answer at all. *)
Definition offline : web := fun _ => Unreachable.

Definition no_files : files := fun _ => None.

Definition some_repr : Q -> string := fun _ => "0.0".

(** A string of [n] nines. *)
Fixpoint nines (n : nat) : string :=
  match n with
  | O => EmptyString
  | S n' => String "9" (nines n')
  end.

(** A site whose page 1 announces a page count of 4301 digits. *)
Definition endless : web :=
  fun _ => Response 200
             (document [leaf "li" (Some ["current"])
                             ("Page 1 of " ++ nines 4301)]).

(** A table whose only row has a header cell that carries a class. *)
Definition classed_header : PageElement :=
  elem "table" (Some ["table"; "table-striped"])
    [ elem "tr" None [leaf "th" (Some ["k"]) "UPC"; leaf "td" None "a897"] ].

(** A table whose key occurs twice, the second time without a value. *)
Definition twice : PageElement :=
  elem "table" (Some ["table"; "table-striped"])
    [ row "UPC" "first"; elem "tr" None [leaf "th" None "UPC"] ].

End Sample.

(** * Properties *)

(** ** Dictionaries *)

Lemma dict_get_set_same (d : dict) (k : string) (v : pyval) :
  dict_get (dict_set d k v) k = Some v.
Proof.
  induction d as [|[k' v'] d IH]; simpl.
  - now rewrite String.eqb_refl.
  - destruct (String.eqb k' k) eqn:E; simpl; rewrite E; auto.
Qed.

Lemma dict_get_set_other (d : dict) (k k' : string) (v : pyval) :
  k' <> k -> dict_get (dict_set d k v) k' = dict_get d k'.
Proof.
  intros Hne. induction d as [|[k0 v0] d IH]; simpl.
  - destruct (String.eqb_spec k k'); congruence.
  - destruct (String.eqb_spec k0 k) as [->|Hk]; simpl.
    + destruct (String.eqb_spec k k'); congruence.
    + now rewrite IH.
Qed.

Lemma dict_keys_set (d : dict) (k : string) (v : pyval) :
  dict_keys (dict_set d k v)
  = if in_dec string_dec k (dict_keys d) then dict_keys d
    else (dict_keys d ++ [k])%list.
Proof.
  induction d as [|[k0 v0] d IH]; simpl.
  - reflexivity.
  - destruct (String.eqb_spec k0 k) as [->|Hk]; simpl.
    + destruct (string_dec k k); [|congruence].
      now destruct (in_dec string_dec k (dict_keys d)).
    + destruct (string_dec k0 k); [congruence|].
      unfold dict_keys in *. rewrite IH.
      now destruct (in_dec string_dec k (map fst d)).
Qed.

Lemma dict_set_keeps_keys (d : dict) (k k' : string) (v : pyval) :
  In k' (dict_keys d) -> In k' (dict_keys (dict_set d k v)).
Proof.
  rewrite dict_keys_set.
  destruct (in_dec string_dec k (dict_keys d)); auto.
  intros. apply in_or_app. now left.
Qed.

Lemma dict_set_NoDup (d : dict) (k : string) (v : pyval) :
  NoDup (dict_keys d) -> NoDup (dict_keys (dict_set d k v)).
Proof.
  intros Hd. rewrite dict_keys_set.
  destruct (in_dec string_dec k (dict_keys d)) as [|Hn]; auto.
  apply NoDup_app; auto.
  - repeat constructor. simpl. tauto.
  - intros x Hx [<-|[]]. contradiction.
Qed.

Lemma dict_set_all_str (d : dict) (k : string) (v : pyval) :
  is_str v ->
  Forall (fun kv => is_str (snd kv)) d ->
  Forall (fun kv => is_str (snd kv)) (dict_set d k v).
Proof.
  intros Hv Hd. induction Hd as [|[k0 v0] d H0 Hd IH]; simpl.
  - repeat constructor. exact Hv.
  - destruct (String.eqb k0 k); constructor; auto.
Qed.

(** ** The field extractor, case by case *)

Lemma index_bound (x : string) (t : list string) (i : Z) :
  Py.index x t = Some i -> 0 <= i < Z.of_nat (List.length t).
Proof.
  revert i. induction t as [|y t IH]; intros i; simpl Py.index.
  - discriminate.
  - destruct (String.eqb y x).
    + intros H; inversion H; subst. simpl List.length. lia.
    + destruct (Py.index x t) as [j|]; [|discriminate].
      intros H; inversion H; subst.
      specialize (IH j eq_refl). simpl List.length. lia.
Qed.

Lemma index_stars_bound (x : string) (i : Z) :
  Py.index x stars_count = Some i -> 0 <= i <= 5.
Proof.
  intros H. apply index_bound in H. simpl in H. lia.
Qed.

(** A call leaves the dictionary alone, or raises and leaves it alone,
    or assigns one value of the mode's kind to [key]. *)
Lemma set_dict_value_cases (data : dict) (key : string)
      (element : option PageElement) (data_type : string) :
  _set_dict_value data key element data_type = (data, Ok tt)
  \/ (exists e, _set_dict_value data key element data_type = (data, Raise e))
  \/ (exists v, _set_dict_value data key element data_type
                = (dict_set data key v, Ok tt)
                /\ value_of_mode data_type v).
Proof.
  unfold _set_dict_value.
  destruct element as [el|]; [|now left].
  destruct (Py.mem data_type ["text"; "number"; "rating"]); cbn [negb];
    [|now left].
  destruct (String.eqb_spec data_type "text") as [->|_].
  { right; right. eexists; split; [reflexivity|]. reflexivity. }
  destruct (String.eqb_spec data_type "number") as [->|_].
  { destruct (_number_pattern (text el)) as [m|]; [|now left].
    destruct (Py.has_char "." m).
    - unfold bind, lift. destruct (float m) as [q|e].
      + right; right. eexists; split; [reflexivity|]. reflexivity.
      + right; left. now exists e.
    - unfold bind, lift. destruct (Py.int m) as [z|e].
      + right; right. eexists; split; [reflexivity|]. now left.
      + right; left. now exists e. }
  destruct (String.eqb_spec data_type "rating") as [->|_]; [|now left].
  unfold bind, lift.
  destruct (getitem_class el) as [cls|e]; [|right; left; now exists e].
  destruct (getitem cls 1) as [tok|e]; [|right; left; now exists e].
  destruct (Py.mem (Py.lower tok) stars_count); [|now left].
  destruct (Py.index (Py.lower tok) stars_count) as [i|] eqn:Hi.
  - right; right. eexists; split; [reflexivity|].
    right. split; [reflexivity|]. now apply index_stars_bound in Hi.
  - right; left. now exists ValueError.
Qed.

(** C9: a call to [_set_dict_value] changes at most the entry under
    [key] and removes no key, whether it returns or raises; with no
    element, or with a mode other than text, number and rating, the
    dictionary is returned as it was and the call returns normally. *)
Theorem set_dict_value_frame (data : dict) (key : string)
        (element : option PageElement) (data_type : string) :
  let after := fst (_set_dict_value data key element data_type) in
  (forall k, k <> key -> dict_get after k = dict_get data k)
  /\ (forall k, In k (dict_keys data) -> In k (dict_keys after))
  /\ (forall k, In k (dict_keys after) -> k = key \/ In k (dict_keys data))
  /\ (element = None \/ Py.mem data_type ["text"; "number"; "rating"] = false ->
      _set_dict_value data key element data_type = (data, Ok tt)).
Proof.
  cbv zeta. repeat split.
  - intros k Hk.
    destruct (set_dict_value_cases data key element data_type)
      as [E|[[e E]|[v [E _]]]]; rewrite E; simpl; auto.
    now apply dict_get_set_other.
  - intros k Hk.
    destruct (set_dict_value_cases data key element data_type)
      as [E|[[e E]|[v [E _]]]]; rewrite E; simpl; auto.
    now apply dict_set_keeps_keys.
  - intros k.
    destruct (set_dict_value_cases data key element data_type)
      as [E|[[e E]|[v [E _]]]]; rewrite E; simpl; auto.
    rewrite dict_keys_set.
    destruct (in_dec string_dec key (dict_keys data)); auto.
    intros H. apply in_app_or in H. destruct H as [H|[H|[]]]; auto.
  - intros [->|H]; unfold _set_dict_value; [reflexivity|].
    destruct element; [|reflexivity]. now rewrite H.
Qed.

Lemma set_dict_value_frame_witness :
  dict_get
    (fst (_set_dict_value default_data "price"
            (Some (Sample.leaf "p" (Some ["price_color"]) "12"))
            "number")) "title"
  = dict_get default_data "title"
  /\ _set_dict_value default_data "price" None "number"
     = (default_data, Ok tt)
  /\ _set_dict_value default_data "price"
       (Some (Sample.leaf "p" (Some ["price_color"]) "12")) "html"
     = (default_data, Ok tt).
Proof.
  split; [|split].
  - apply (proj1 (set_dict_value_frame default_data "price"
                    (Some (Sample.leaf "p" (Some ["price_color"]) "12"))
                    "number")).
    discriminate.
  - apply (proj2 (proj2 (proj2 (set_dict_value_frame default_data "price"
                                  None "number")))).
    left. reflexivity.
  - apply (proj2 (proj2 (proj2 (set_dict_value_frame default_data "price"
             (Some (Sample.leaf "p" (Some ["price_color"]) "12")) "html")))).
    right. reflexivity.
Defined.

Lemma set_dict_value_other (data : dict) (key : string)
      (element : option PageElement) (data_type k : string) :
  k <> key ->
  dict_get (fst (_set_dict_value data key element data_type)) k
  = dict_get data k.
Proof.
  intros Hk.
  destruct (set_dict_value_cases data key element data_type)
    as [E|[[e E]|[v [E _]]]]; rewrite E; simpl; auto.
  now apply dict_get_set_other.
Qed.

(** ** Membership and position in a tuple *)

Lemma mem_In (x : string) (t : list string) :
  Py.mem x t = true <-> In x t.
Proof.
  unfold Py.mem. rewrite existsb_exists. split.
  - intros [y [Hy E]]. apply String.eqb_eq in E. now subst.
  - intros H. exists x. split; auto. apply String.eqb_refl.
Qed.

Lemma index_of_star (i : nat) (x : string) :
  nth_error stars_count i = Some x ->
  Py.index x stars_count = Some (Z.of_nat i) /\ (i <= 5)%nat.
Proof.
  unfold stars_count.
  do 6 (destruct i as [|i];
        [intros H; inversion H; subst; split; [reflexivity | lia]|]).
  simpl. destruct i; discriminate.
Qed.

(** ** [get_book_data], step by step *)

Lemma find_hd_filter {A : Type} (f : A -> bool) (l : list A) :
  List.find f l = hd_error (filter f l).
Proof.
  induction l as [|x l IH]; simpl; auto. now destruct (f x).
Qed.

Lemma get_tag_no_class (e : PageElement) (tag_name : string) :
  get_tag e tag_name no_class = first_classless tag_name e.
Proof.
  unfold get_tag, no_class, first_classless, find. simpl truthy. cbv iota.
  rewrite find_hd_filter. f_equal. apply filter_ext.
  intros [s|n [c|] h kids]; simpl; auto.
  - now rewrite andb_false_r.
  - now rewrite andb_true_r.
Qed.

Lemma get_rows_rows (parent : PageElement) :
  get_rows parent = Ok (rows_mapping (find_all parent "tr")).
Proof.
  unfold get_rows, rows_mapping.
  generalize (find_all parent "tr") as trs. generalize (@nil (string * pyval)).
  intros d trs. revert d.
  assert (G : forall trs d,
             for_each get_rows_step trs d = (fold_left rows_step trs d, Ok tt)).
  { induction trs0 as [|row trs0 IH]; intros d; simpl.
    - reflexivity.
    - unfold bind at 1. unfold get_rows_step at 1.
      rewrite !get_tag_no_class.
      unfold rows_step, row_entry, header_cell, data_cell.
      destruct (first_classless "th" row) as [h|]; simpl.
      + destruct (first_classless "td" row) as [c|]; simpl; apply IH.
      + apply IH. }
  intros d. now rewrite G.
Qed.

Lemma fill_book_data_default (soup : PageElement) (d : dict) :
  containers soup = None -> fill_book_data soup d = (d, Ok tt).
Proof.
  unfold containers, fill_book_data.
  destruct (get_tag soup "article" (CStr "product_page")) as [root|];
    [|reflexivity].
  destruct (get_tag root "div" (CPattern _main_data_pattern));
    [discriminate | reflexivity].
Qed.

(** When both containers are found and no step raises, the result is
    reached through the five extractions and the optional table. *)
Lemma fill_book_data_steps (soup data_root main_data : PageElement)
      (d data : dict) :
  containers soup = Some (data_root, main_data) ->
  fill_book_data soup d = (data, Ok tt) ->
  exists d1 d2 d3 d4 d5,
    _set_dict_value d "title" (get_tag main_data "h1" no_class) "text"
    = (d1, Ok tt)
    /\ _set_dict_value d1 "description" (get_tag data_root "p" no_class) "text"
       = (d2, Ok tt)
    /\ _set_dict_value d2 "price"
         (get_tag main_data "p" (CStr "price_color")) "number" = (d3, Ok tt)
    /\ _set_dict_value d3 "available"
         (get_tag main_data "p" (CStr "instock availability")) "number"
       = (d4, Ok tt)
    /\ _set_dict_value d4 "rating"
         (get_tag main_data "p" (CPattern _rating_pattern)) "rating"
       = (d5, Ok tt)
    /\ data = match get_tag data_root "table" (CStr "table table-striped") with
              | Some table =>
                  dict_set d5 "additional_info"
                           (VDict (rows_mapping (find_all table "tr")))
              | None => d5
              end.
Proof.
  unfold containers, fill_book_data.
  destruct (get_tag soup "article" (CStr "product_page")) as [root|];
    [|discriminate].
  destruct (get_tag root "div" (CPattern _main_data_pattern)) as [main|];
    [|discriminate].
  intros H; inversion H; subst; clear H.
  unfold bind.
  destruct (_set_dict_value d "title" _ "text") as [d1 [[]|e]] eqn:E1;
    [|discriminate].
  destruct (_set_dict_value d1 "description" _ "text") as [d2 [[]|e]] eqn:E2;
    [|discriminate].
  destruct (_set_dict_value d2 "price" _ "number") as [d3 [[]|e]] eqn:E3;
    [|discriminate].
  destruct (_set_dict_value d3 "available" _ "number") as [d4 [[]|e]] eqn:E4;
    [|discriminate].
  destruct (_set_dict_value d4 "rating" _ "rating") as [d5 [[]|e]] eqn:E5;
    [|discriminate].
  intros H. exists d1, d2, d3, d4, d5.
  repeat (split; [eassumption || reflexivity|]).
  destruct (get_tag data_root "table" (CStr "table table-striped")) as [t|].
  - unfold lift, store in H. rewrite get_rows_rows in H.
    cbv beta iota in H. now inversion H.
  - unfold ret in H. now inversion H.
Qed.

Lemma get_book_data_inv (w : web) (url : string) (data : dict) :
  get_book_data w url = Ok data ->
  exists status_code soup,
    w url = Response status_code soup
    /\ raise_for_status status_code = Ok tt
    /\ fill_book_data soup default_data = (data, Ok tt).
Proof.
  unfold get_book_data, requests_get.
  destruct (w url) as [|st soup]; cbn [res_bind]; [discriminate|].
  destruct (raise_for_status st) as [[]|e] eqn:Est; cbn [res_bind];
    [|discriminate].
  destruct (fill_book_data soup default_data) as [d [[]|e]] eqn:Efill;
    [|discriminate].
  intros H; inversion H; subst. now exists st, soup.
Qed.

(** ** Rating mode *)

Lemma set_dict_value_rating (data : dict) (key : string) (el : PageElement)
      (cls : list string) (tok : string) :
  getitem_class el = Ok cls ->
  nth_error cls 1 = Some tok ->
  _set_dict_value data key (Some el) "rating"
  = if Py.mem (Py.lower tok) stars_count
    then match Py.index (Py.lower tok) stars_count with
         | Some i => (dict_set data key (VInt i), Ok tt)
         | None => (data, Raise ValueError)
         end
    else (data, Ok tt).
Proof.
  intros Hcls Htok. unfold _set_dict_value.
  change (Py.mem "rating" ["text"; "number"; "rating"]) with true.
  change (String.eqb "rating" "text") with false.
  change (String.eqb "rating" "number") with false.
  change (String.eqb "rating" "rating") with true.
  cbn [negb]. unfold bind, lift, getitem. rewrite Hcls, Htok.
  destruct (Py.mem (Py.lower tok) stars_count); [|reflexivity].
  now destruct (Py.index (Py.lower tok) stars_count).
Qed.

Lemma rating_node_containers (soup el : PageElement) :
  rating_node soup = Some el ->
  exists data_root main_data,
    containers soup = Some (data_root, main_data)
    /\ get_tag main_data "p" (CPattern _rating_pattern) = Some el.
Proof.
  unfold rating_node, containers.
  destruct (get_tag soup "article" (CStr "product_page")) as [root|];
    [|discriminate].
  destruct (get_tag root "div" (CPattern _main_data_pattern)) as [main|];
    [|discriminate].
  intros H. now exists root, main.
Qed.

(** C3: in rating mode the extractor reads the second class token of the
    node; when its lower-case form is the word at position [i] of zero,
    one, two, three, four, five, the value [i] (between 0 and 5) is
    written; when it is none of these words nothing is written, and the
    Record built from a page whose rating node is this node keeps
    rating 0. *)
Theorem rating_extraction (el : PageElement) (cls : list string)
        (tok : string) :
  getitem_class el = Ok cls ->
  nth_error cls 1 = Some tok ->
  (forall data key i,
      nth_error stars_count i = Some (Py.lower tok) ->
      _set_dict_value data key (Some el) "rating"
      = (dict_set data key (VInt (Z.of_nat i)), Ok tt)
      /\ (i <= 5)%nat)
  /\ (~ In (Py.lower tok) stars_count ->
      (forall data key,
          _set_dict_value data key (Some el) "rating" = (data, Ok tt))
      /\ (forall w url status_code soup book,
             w url = Response status_code soup ->
             rating_node soup = Some el ->
             get_book_data w url = Ok book ->
             dict_get book "rating" = Some (VInt 0))).
Proof.
  intros Hcls Htok. split.
  - intros data key i Hi.
    rewrite (set_dict_value_rating data key el cls tok Hcls Htok).
    assert (Hin : Py.mem (Py.lower tok) stars_count = true).
    { apply mem_In. eapply nth_error_In. exact Hi. }
    rewrite Hin. apply index_of_star in Hi. destruct Hi as [Hi Hle].
    now rewrite Hi.
  - intros Hout.
    assert (Hmem : Py.mem (Py.lower tok) stars_count = false).
    { destruct (Py.mem (Py.lower tok) stars_count) eqn:E; auto.
      apply mem_In in E. contradiction. }
    assert (Hmiss : forall data key,
               _set_dict_value data key (Some el) "rating" = (data, Ok tt)).
    { intros data key.
      rewrite (set_dict_value_rating data key el cls tok Hcls Htok).
      now rewrite Hmem. }
    split; [exact Hmiss|].
    intros w url st soup book Hw Hnode Hbook.
    apply get_book_data_inv in Hbook.
    destruct Hbook as [st' [soup' [Hw' [_ Hfill]]]].
    rewrite Hw in Hw'. inversion Hw'; subst st' soup'; clear Hw'.
    apply rating_node_containers in Hnode.
    destruct Hnode as [root [main [Hc Hel]]].
    destruct (fill_book_data_steps _ _ _ _ _ Hc Hfill)
      as [d1 [d2 [d3 [d4 [d5 [E1 [E2 [E3 [E4 [E5 Hdata]]]]]]]]]].
    rewrite Hel, Hmiss in E5. inversion E5; subst d5; clear E5.
    assert (H4 : dict_get d4 "rating" = Some (VInt 0)).
    { replace d4 with (fst (_set_dict_value d3 "available"
        (get_tag main "p" (CStr "instock availability")) "number"))
        by now rewrite E4.
      rewrite set_dict_value_other by discriminate.
      replace d3 with (fst (_set_dict_value d2 "price"
        (get_tag main "p" (CStr "price_color")) "number"))
        by now rewrite E3.
      rewrite set_dict_value_other by discriminate.
      replace d2 with (fst (_set_dict_value d1 "description"
        (get_tag root "p" no_class) "text")) by now rewrite E2.
      rewrite set_dict_value_other by discriminate.
      replace d1 with (fst (_set_dict_value default_data "title"
        (get_tag main "h1" no_class) "text")) by now rewrite E1.
      rewrite set_dict_value_other by discriminate.
      reflexivity. }
    subst book.
    destruct (get_tag root "table" (CStr "table table-striped")); auto.
    rewrite dict_get_set_other by discriminate. exact H4.
Qed.

Lemma rating_extraction_witness :
  _set_dict_value default_data "rating"
    (Some (Sample.leaf "p" (Some ["star-rating"; "Three"]) "")) "rating"
  = (dict_set default_data "rating" (VInt 3), Ok tt)
  /\ dict_get
       (match get_book_data (fun _ => Response 200 Sample.unrated_page) "u"
        with Ok book => book | Raise _ => [] end) "rating"
     = Some (VInt 0).
Proof.
  split.
  - destruct (rating_extraction
                (Sample.leaf "p" (Some ["star-rating"; "Three"]) "")
                ["star-rating"; "Three"] "Three" eq_refl eq_refl)
      as [H _].
    exact (proj1 (H default_data "rating" 3%nat eq_refl)).
  - assert (Hout : ~ In (Py.lower "Many") stars_count).
    { vm_compute. intuition discriminate. }
    destruct (rating_extraction
                (Sample.leaf "p" (Some ["star-rating"; "Many"]) "")
                ["star-rating"; "Many"] "Many" eq_refl eq_refl)
      as [_ H].
    destruct (H Hout) as [_ Hbook].
    destruct (get_book_data (fun _ => Response 200 Sample.unrated_page) "u")
      as [book|e] eqn:E; [|vm_compute in E; discriminate].
    apply (Hbook (fun _ => Response 200 Sample.unrated_page) "u" 200
                 Sample.unrated_page book eq_refl); [reflexivity | exact E].
Defined.

(** ** Records stay complete *)

Lemma full_record_default : full_record default_data.
Proof.
  unfold full_record, default_data.
  do 6 eexists. split; [reflexivity|].
  simpl. repeat split; try lia; constructor.
Qed.

Lemma rows_mapping_info (trs : list PageElement) :
  is_info (VDict (rows_mapping trs)).
Proof.
  unfold rows_mapping, is_info.
  assert (G : forall d,
             NoDup (dict_keys d) /\ Forall (fun kv => is_str (snd kv)) d ->
             let d' := fold_left rows_step trs d in
             NoDup (dict_keys d') /\ Forall (fun kv => is_str (snd kv)) d').
  { induction trs as [|row trs IH]; intros d [Hn Hs]; simpl.
    - now split.
    - apply IH. unfold rows_step, row_entry.
      destruct (header_cell row); [|now split].
      destruct (data_cell row); [|now split].
      split; [now apply dict_set_NoDup | now apply dict_set_all_str]. }
  apply G. split; constructor.
Qed.

Lemma full_record_step (d d' : dict) (key data_type : string)
      (element : option PageElement) :
  In (key, data_type) field_modes ->
  full_record d ->
  _set_dict_value d key element data_type = (d', Ok tt) ->
  full_record d'.
Proof.
  intros Hin Hd E.
  destruct (set_dict_value_cases d key element data_type)
    as [E'|[[e E']|[v [E' Hv]]]]; rewrite E' in E; inversion E; subst; auto.
  destruct Hd as (t & p & r & a & ds & ai & -> & Ht & Hp & Hr & Ha & Hds & Hai).
  unfold field_modes in Hin. simpl in Hin.
  destruct Hin as [H|[H|[H|[H|[H|[]]]]]]; inversion H; subst; clear H;
    destruct v; simpl in Hv;
    try (destruct Hv as [Hv|[Hv Hb]]); try discriminate; try contradiction;
    do 6 eexists; (split; [reflexivity|]); simpl; tauto.
Qed.

Lemma full_record_info (d : dict) (info : pyval) :
  full_record d -> is_info info ->
  full_record (dict_set d "additional_info" info).
Proof.
  intros (t & p & r & a & ds & ai & -> & Ht & Hp & Hr & Ha & Hds & Hai) Hi.
  do 6 eexists. split; [reflexivity|]. tauto.
Qed.

Lemma fill_book_data_full (soup : PageElement) (data : dict) :
  fill_book_data soup default_data = (data, Ok tt) -> full_record data.
Proof.
  intros Hfill.
  destruct (containers soup) as [[root main]|] eqn:Hc.
  - destruct (fill_book_data_steps _ _ _ _ _ Hc Hfill)
      as [d1 [d2 [d3 [d4 [d5 [E1 [E2 [E3 [E4 [E5 Hdata]]]]]]]]]].
    assert (H5 : full_record d5).
    { eapply full_record_step; [| |exact E5]; [simpl; tauto|].
      eapply full_record_step; [| |exact E4]; [simpl; tauto|].
      eapply full_record_step; [| |exact E3]; [simpl; tauto|].
      eapply full_record_step; [| |exact E2]; [simpl; tauto|].
      eapply full_record_step; [| |exact E1]; [simpl; tauto|].
      apply full_record_default. }
    subst data.
    destruct (get_tag root "table" (CStr "table table-striped")); auto.
    apply full_record_info; auto. apply rows_mapping_info.
  - rewrite fill_book_data_default in Hfill by assumption.
    inversion Hfill; subst. apply full_record_default.
Qed.

(** C1, as the code has it: a fetch that fails is not caught, its
    exception reaches the caller; a fetch that succeeds on a page without
    the root or the primary container gives the all-defaults Record; and
    every Record [get_book_data] returns has all six fields, each with a
    value of its kind. *)
Theorem get_book_data_outcomes (w : web) (url : string) :
  (w url = Unreachable -> get_book_data w url = Raise ConnectionError)
  /\ (forall status_code soup,
         w url = Response status_code soup ->
         400 <= status_code < 600 ->
         get_book_data w url = Raise HTTPError)
  /\ (forall status_code soup,
         w url = Response status_code soup ->
         ~ 400 <= status_code < 600 ->
         containers soup = None ->
         get_book_data w url = Ok default_data)
  /\ (forall data, get_book_data w url = Ok data -> full_record data).
Proof.
  repeat split.
  - intros H. unfold get_book_data, requests_get. now rewrite H.
  - intros st soup H Hst. unfold get_book_data, requests_get. rewrite H.
    cbn [res_bind]. unfold raise_for_status.
    replace (Z.leb 400 st) with true by (symmetry; apply Z.leb_le; lia).
    replace (Z.ltb st 600) with true by (symmetry; apply Z.ltb_lt; lia).
    reflexivity.
  - intros st soup H Hst Hc. unfold get_book_data, requests_get. rewrite H.
    cbn [res_bind]. unfold raise_for_status.
    destruct (Z.leb 400 st && Z.ltb st 600)%bool eqn:E.
    + apply andb_prop in E. destruct E as [E1 E2].
      apply Z.leb_le in E1. apply Z.ltb_lt in E2. lia.
    + cbn [res_bind]. now rewrite fill_book_data_default.
  - intros data H. apply get_book_data_inv in H.
    destruct H as [st [soup [_ [_ Hfill]]]].
    now apply fill_book_data_full in Hfill.
Qed.

Lemma get_book_data_outcomes_witness :
  get_book_data Sample.offline Sample.book_url = Raise ConnectionError
  /\ get_book_data (fun _ => Response 404 Sample.book_page) Sample.book_url
     = Raise HTTPError
  /\ get_book_data (fun _ => Response 200 (Sample.document []))
                   Sample.book_url = Ok default_data
  /\ full_record
       (match get_book_data Sample.shop Sample.book_url with
        | Ok data => data
        | Raise _ => []
        end).
Proof.
  split; [|split; [|split]].
  - apply (get_book_data_outcomes Sample.offline Sample.book_url).
    reflexivity.
  - apply (proj1 (proj2 (get_book_data_outcomes
                           (fun _ => Response 404 Sample.book_page)
                           Sample.book_url))
             404 Sample.book_page eq_refl).
    lia.
  - apply (proj1 (proj2 (proj2 (get_book_data_outcomes
                           (fun _ => Response 200 (Sample.document []))
                           Sample.book_url)))
             200 (Sample.document []) eq_refl); [lia | reflexivity].
  - destruct (get_book_data Sample.shop Sample.book_url) as [data|e] eqn:E;
      [|vm_compute in E; discriminate].
    exact (proj2 (proj2 (proj2 (get_book_data_outcomes
                                  Sample.shop Sample.book_url))) data E).
Defined.

(** C1 as stated fails: for an address that cannot be reached the call
    raises, and so it does on an error status; no Record is returned. *)
Lemma get_book_data_propagates :
  get_book_data Sample.offline Sample.book_url = Raise ConnectionError
  /\ get_book_data (fun _ => Response 404 Sample.book_page) Sample.book_url
     = Raise HTTPError
  /\ ~ (forall w url, exists data, get_book_data w url = Ok data).
Proof.
  split; [reflexivity|]. split; [reflexivity|].
  intros H. destruct (H Sample.offline Sample.book_url) as [data E].
  discriminate E.
Qed.

(** ** Text mode and the description *)

Lemma set_dict_value_text (data : dict) (key : string) (el : PageElement) :
  _set_dict_value data key (Some el) "text"
  = (dict_set data key (VStr (Py.strip (text el))), Ok tt).
Proof. reflexivity. Qed.

(** C7, as the code has it: when both containers are found, the
    description of the Record is the trimmed text of the first paragraph
    below the root container that has no class attribute, and the empty
    string when there is no such paragraph. *)
Theorem description_field (w : web) (url : string) (status_code : Z)
        (soup data_root main_data : PageElement) (book : dict) :
  w url = Response status_code soup ->
  containers soup = Some (data_root, main_data) ->
  get_book_data w url = Ok book ->
  dict_get book "description"
  = Some (VStr match first_classless "p" data_root with
               | Some p => Py.strip (text p)
               | None => EmptyString
               end).
Proof.
  intros Hw Hc Hbook. apply get_book_data_inv in Hbook.
  destruct Hbook as [st' [soup' [Hw' [_ Hfill]]]].
  rewrite Hw in Hw'. inversion Hw'; subst st' soup'; clear Hw'.
  destruct (fill_book_data_steps _ _ _ _ _ Hc Hfill)
    as [d1 [d2 [d3 [d4 [d5 [E1 [E2 [E3 [E4 [E5 Hdata]]]]]]]]]].
  assert (H2 : dict_get d2 "description"
               = Some (VStr match first_classless "p" data_root with
                            | Some p => Py.strip (text p)
                            | None => EmptyString
                            end)).
  { rewrite get_tag_no_class in E2.
    destruct (first_classless "p" data_root) as [p|].
    - rewrite set_dict_value_text in E2. inversion E2; subst d2.
      apply dict_get_set_same.
    - simpl in E2. inversion E2; subst d2.
      replace d1 with (fst (_set_dict_value default_data "title"
        (get_tag main_data "h1" no_class) "text")) by now rewrite E1.
      now rewrite set_dict_value_other by discriminate. }
  assert (H5 : dict_get d5 "description" = dict_get d2 "description").
  { replace d5 with (fst (_set_dict_value d4 "rating"
      (get_tag main_data "p" (CPattern _rating_pattern)) "rating"))
      by now rewrite E5.
    rewrite set_dict_value_other by discriminate.
    replace d4 with (fst (_set_dict_value d3 "available"
      (get_tag main_data "p" (CStr "instock availability")) "number"))
      by now rewrite E4.
    rewrite set_dict_value_other by discriminate.
    replace d3 with (fst (_set_dict_value d2 "price"
      (get_tag main_data "p" (CStr "price_color")) "number"))
      by now rewrite E3.
    now rewrite set_dict_value_other by discriminate. }
  subst book. rewrite <- H2, <- H5.
  destruct (get_tag data_root "table" (CStr "table table-striped")); auto.
  now rewrite dict_get_set_other by discriminate.
Qed.

Lemma description_field_witness :
  dict_get
    (match get_book_data (fun _ => Response 200 Sample.book_page) "u" with
     | Ok book => book
     | Raise _ => []
     end) "description"
  = Some (VStr "A now-classic collection.").
Proof.
  destruct (containers Sample.book_page) as [[root main]|] eqn:Hc;
    [|vm_compute in Hc; discriminate].
  destruct (get_book_data (fun _ => Response 200 Sample.book_page) "u")
    as [book|e] eqn:E; [|vm_compute in E; discriminate].
  rewrite (description_field (fun _ => Response 200 Sample.book_page) "u"
             200 Sample.book_page root main book eq_refl Hc E).
  vm_compute in Hc. inversion Hc; subst. reflexivity.
Defined.

(** C7 as stated fails: on the sample page the first paragraph below the
    root container is the price paragraph, and the description is the
    text of a later paragraph. *)
Lemma description_not_first_paragraph :
  exists data_root main_data p book,
    containers Sample.book_page = Some (data_root, main_data)
    /\ first_tag "p" data_root = Some p
    /\ get_book_data (fun _ => Response 200 Sample.book_page) "u" = Ok book
    /\ dict_get book "description" <> Some (VStr (Py.strip (text p))).
Proof.
  destruct (containers Sample.book_page) as [[root main]|] eqn:Hc;
    [|vm_compute in Hc; discriminate].
  destruct (first_tag "p" root) as [p|] eqn:Hp;
    [|vm_compute in Hc; inversion Hc; subst; vm_compute in Hp; discriminate].
  destruct (get_book_data (fun _ => Response 200 Sample.book_page) "u")
    as [book|e] eqn:E; [|vm_compute in E; discriminate].
  exists root, main, p, book.
  repeat (split; [assumption || reflexivity|]).
  vm_compute in Hc. inversion Hc; subst; clear Hc.
  vm_compute in Hp. inversion Hp; subst; clear Hp.
  vm_compute in E. inversion E; subst; clear E.
  intros H. vm_compute in H. discriminate H.
Qed.

(** ** The additional-info table *)

Lemma rows_lookup (trs : list PageElement) (d : dict) (k : string) :
  dict_get (fold_left rows_step trs d) k
  = match last_entry k trs with
    | Some v => Some v
    | None => dict_get d k
    end.
Proof.
  induction trs as [|row trs IH] using rev_ind.
  - reflexivity.
  - rewrite fold_left_app. simpl fold_left.
    unfold last_entry. rewrite rev_app_distr. simpl rev. simpl List.find.
    unfold rows_step at 1.
    destruct (row_entry row) as [[k' v]|] eqn:Er.
    + destruct (String.eqb_spec k' k) as [->|Hk].
      * rewrite Er. simpl. apply dict_get_set_same.
      * rewrite dict_get_set_other by congruence. exact IH.
    + exact IH.
Qed.

Lemma last_entry_none (trs : list PageElement) (k : string) :
  (forall row h, In row trs -> header_cell row = Some h -> text h = k ->
                 data_cell row = None) ->
  last_entry k trs = None.
Proof.
  intros H. unfold last_entry.
  destruct (List.find _ (rev trs)) as [row|] eqn:E; [|reflexivity].
  apply find_some in E. destruct E as [Hin E].
  apply in_rev in Hin. unfold row_entry in E.
  destruct (header_cell row) as [h|] eqn:Eh; [|discriminate].
  destruct (data_cell row) as [c|] eqn:Ec; [|discriminate].
  apply String.eqb_eq in E.
  rewrite (H row h Hin Eh E) in Ec. discriminate.
Qed.

(** C6, as the code has it: [get_rows] builds the mapping by scanning
    the rows in order, and the cells it reads are the first header cell
    without a class attribute and the first data cell without a class
    attribute of each row.  A row without such a header cell adds
    nothing, a row with such a header cell but no such data cell adds
    nothing either, a row with both puts the trimmed text of the data
    cell under the text of the header cell; a key whose rows all lack
    such a data cell is absent from the mapping. *)
Theorem get_rows_mapping (parent : PageElement) :
  get_rows parent = Ok (rows_mapping (find_all parent "tr"))
  /\ (forall row rows,
         header_cell row = None -> get_rows_step row rows = (rows, Ok tt))
  /\ (forall row rows h,
         header_cell row = Some h -> data_cell row = None ->
         get_rows_step row rows = (rows, Ok tt))
  /\ (forall row rows h c,
         header_cell row = Some h -> data_cell row = Some c ->
         get_rows_step row rows
         = (dict_set rows (text h) (VStr (Py.strip (text c))), Ok tt))
  /\ (forall k,
         (forall row h, In row (find_all parent "tr") ->
                        header_cell row = Some h -> text h = k ->
                        data_cell row = None) ->
         dict_get (rows_mapping (find_all parent "tr")) k = None).
Proof.
  split; [apply get_rows_rows|].
  assert (Hstep : forall row rows,
             get_rows_step row rows
             = match header_cell row with
               | Some k => _set_dict_value rows (text k) (data_cell row) "text"
               | None => (rows, Ok tt)
               end).
  { intros row rows. unfold get_rows_step, header_cell, data_cell.
    now rewrite !get_tag_no_class. }
  split; [|split; [|split]].
  - intros row rows H. now rewrite Hstep, H.
  - intros row rows h Hh Hc. now rewrite Hstep, Hh, Hc.
  - intros row rows h c Hh Hc. now rewrite Hstep, Hh, Hc.
  - intros k H. unfold rows_mapping.
    rewrite rows_lookup. now rewrite last_entry_none.
Qed.

Lemma get_rows_mapping_witness :
  get_rows Sample.twice = Ok [("UPC", VStr "first")]
  /\ dict_get (rows_mapping
                 (find_all (Sample.elem "table" None
                              [Sample.elem "tr" None
                                 [Sample.leaf "th" None "Tax"]]) "tr"))
              "Tax" = None.
Proof.
  split.
  - rewrite (proj1 (get_rows_mapping Sample.twice)). reflexivity.
  - apply (proj2 (proj2 (proj2 (proj2 (get_rows_mapping
             (Sample.elem "table" None
                [Sample.elem "tr" None [Sample.leaf "th" None "Tax"]])))))).
    intros row h Hin Hh _. vm_compute in Hin.
    destruct Hin as [<-|[]]. reflexivity.
Defined.

(** C6 as stated fails: the only row of the sample table has a header
    cell reading UPC and a data cell reading a897, but the header cell
    carries a class, and the mapping is empty. *)
Lemma classed_header_row_is_skipped :
  exists row th td,
    find_all Sample.classed_header "tr" = [row]
    /\ first_tag "th" row = Some th
    /\ text th = "UPC"
    /\ first_tag "td" row = Some td
    /\ Py.strip (text td) = "a897"
    /\ get_rows Sample.classed_header = Ok [].
Proof.
  do 3 eexists. repeat (split; [reflexivity|]). reflexivity.
Qed.

(** C10, as the code has it: the mapping [get_rows] returns has unique
    keys, and under each key it holds the value of the last row whose
    first header cell without a class attribute reads this key and which
    has a data cell without a class attribute. *)
Theorem get_rows_last_wins (parent : PageElement) :
  exists rows,
    get_rows parent = Ok rows
    /\ NoDup (dict_keys rows)
    /\ forall k, dict_get rows k = last_entry k (find_all parent "tr").
Proof.
  exists (rows_mapping (find_all parent "tr")).
  split; [apply get_rows_rows|]. split.
  - apply (rows_mapping_info (find_all parent "tr")).
  - intros k. unfold rows_mapping.
    rewrite rows_lookup. now destruct (last_entry k (find_all parent "tr")).
Qed.

(** C10 as stated fails: in the sample table the last row with header
    UPC has no data cell of any kind, and the mapping holds the value of
    the row before it. *)
Lemma last_row_without_value :
  exists rows row th,
    get_rows Sample.twice = Ok rows
    /\ last (rows_with_header "UPC" (find_all Sample.twice "tr"))
            (NavigableString EmptyString) = row
    /\ last (find_all Sample.twice "tr") (NavigableString EmptyString) = row
    /\ first_tag "th" row = Some th
    /\ text th = "UPC"
    /\ first_tag "td" row = None
    /\ dict_get rows "UPC" = Some (VStr "first").
Proof.
  do 3 eexists. repeat (split; [reflexivity|]). reflexivity.
Qed.

(** ** Numeric mode *)

Lemma drop_while_app (p : ascii -> bool) (pre s : string) :
  Py.all_chars p pre = true ->
  Py.drop_while p (pre ++ s) = Py.drop_while p s.
Proof.
  induction pre as [|c pre IH]; simpl; auto.
  destruct (p c); simpl; [auto | discriminate].
Qed.

Lemma take_while_app (p : ascii -> bool) (m post : string) :
  Py.all_chars p m = true -> stops p post ->
  Py.take_while p (m ++ post) = m.
Proof.
  intros Hm Hpost. induction m as [|c m IH]; simpl in *.
  - destruct post as [|d post]; simpl in *; auto. now rewrite Hpost.
  - destruct (p c); simpl in *; [|discriminate]. now rewrite IH.
Qed.

Lemma drop_while_stops (p : ascii -> bool) (s : string) :
  stops p s -> Py.drop_while p s = s.
Proof.
  destruct s as [|c s]; simpl; auto. now intros ->.
Qed.

Lemma number_pattern_none (s : string) :
  Py.all_chars (fun c => negb (is_number_char c)) s = true ->
  _number_pattern s = None.
Proof.
  intros H. unfold _number_pattern.
  replace s with (s ++ EmptyString).
  - now rewrite drop_while_app.
  - clear H. induction s; simpl; congruence.
Qed.

Lemma number_pattern_run (pre m post : string) :
  Py.all_chars (fun c => negb (is_number_char c)) pre = true ->
  m <> EmptyString ->
  Py.all_chars is_number_char m = true ->
  stops is_number_char post ->
  _number_pattern (pre ++ m ++ post) = Some m.
Proof.
  intros Hpre Hne Hm Hpost. unfold _number_pattern.
  rewrite drop_while_app by assumption.
  destruct m as [|c m]; [congruence|].
  simpl in Hm. apply andb_prop in Hm. destruct Hm as [Hc Hm].
  simpl. rewrite Hc. simpl. rewrite Hc.
  now rewrite take_while_app.
Qed.

Lemma digits_are_number_chars (s : string) :
  Py.all_chars Py.is_digit s = true ->
  Py.all_chars is_number_char s = true /\ Py.has_char "." s = false.
Proof.
  induction s as [|c s IH]; cbn [Py.all_chars Py.has_char]; auto.
  intros H. apply andb_prop in H. destruct H as [Hc Hs].
  destruct (IH Hs) as [H1 H2]. rewrite H1, H2.
  unfold is_number_char. rewrite Hc. split; auto.
  destruct (Ascii.eqb_spec "."%char c) as [<-|_]; [discriminate Hc | reflexivity].
Qed.

Lemma has_char_app (c : ascii) (a b : string) :
  Py.has_char c (a ++ String c b) = true.
Proof.
  induction a as [|d a IH]; cbn [append Py.has_char].
  - now rewrite Ascii.eqb_refl.
  - rewrite IH. apply orb_true_r.
Qed.

Lemma float_decimal (ip fp : string) :
  Py.all_chars Py.is_digit ip = true ->
  Py.all_chars Py.is_digit fp = true ->
  ip ++ fp <> EmptyString ->
  float (ip ++ "." ++ fp)
  = Ok (Qred (Qmake (Py.int_value (ip ++ fp))
                    (Z.to_pos (10 ^ Z.of_nat (String.length fp))))).
Proof.
  intros Hi Hf Hne. unfold float.
  assert (Hstop : stops Py.is_digit ("." ++ fp)) by reflexivity.
  rewrite (take_while_app Py.is_digit ip ("." ++ fp) Hi Hstop).
  rewrite (drop_while_app Py.is_digit ip ("." ++ fp) Hi).
  rewrite (drop_while_stops Py.is_digit ("." ++ fp) Hstop).
  simpl Py.skip. rewrite Hf.
  destruct (String.eqb_spec (ip ++ fp) EmptyString); [contradiction|].
  reflexivity.
Qed.

Lemma set_dict_value_number (data : dict) (key : string) (el : PageElement) :
  _set_dict_value data key (Some el) "number"
  = match _number_pattern (text el) with
    | Some m =>
        if Py.has_char "." m
        then match float m with
             | Ok q => (dict_set data key (VFloat q), Ok tt)
             | Raise e => (data, Raise e)
             end
        else match Py.int m with
             | Ok z => (dict_set data key (VInt z), Ok tt)
             | Raise e => (data, Raise e)
             end
    | None => (data, Ok tt)
    end.
Proof.
  unfold _set_dict_value.
  change (Py.mem "number" ["text"; "number"; "rating"]) with true.
  change (String.eqb "number" "text") with false.
  change (String.eqb "number" "number") with true.
  cbn [negb].
  destruct (_number_pattern (text el)) as [m|]; [|reflexivity].
  unfold bind, lift.
  destruct (Py.has_char "." m); [now destruct (float m)|].
  now destruct (Py.int m).
Qed.

Lemma int_within_limit (s : string) :
  (String.length s <= Py.max_str_digits)%nat ->
  Py.int s = Ok (Py.int_value s).
Proof.
  intros H. unfold Py.int.
  destruct (Nat.ltb_spec Py.max_str_digits (String.length s)); [lia|].
  reflexivity.
Qed.

Lemma int_beyond_limit (s : string) :
  (Py.max_str_digits < String.length s)%nat ->
  Py.int s = Raise ValueError.
Proof.
  intros H. unfold Py.int.
  destruct (Nat.ltb_spec Py.max_str_digits (String.length s)); [|lia].
  reflexivity.
Qed.

Lemma int_outcome (s : string) (r : res Z) :
  Py.int s = r ->
  (r = Ok (Py.int_value s)
   /\ (String.length s <= Py.max_str_digits)%nat)
  \/ (r = Raise ValueError
      /\ (Py.max_str_digits < String.length s)%nat).
Proof.
  intros <-. unfold Py.int.
  destruct (Nat.ltb_spec Py.max_str_digits (String.length s));
    [right | left]; split; auto.
Qed.

(** Numeric mode on the runs it can convert: the extractor takes the
    first maximal run of digits and points of the node's text; with no
    such run nothing is written; a run without a point and within the
    digit limit is written as the integer it spells; a run with exactly
    one point and at least one digit is written as the float it
    spells. *)
Theorem number_extraction (data : dict) (key : string) (el : PageElement) :
  (Py.all_chars (fun c => negb (is_number_char c)) (text el) = true ->
   _set_dict_value data key (Some el) "number" = (data, Ok tt))
  /\ (forall pre m post,
         text el = pre ++ m ++ post ->
         Py.all_chars (fun c => negb (is_number_char c)) pre = true ->
         m <> EmptyString ->
         Py.all_chars is_number_char m = true ->
         stops is_number_char post ->
         _number_pattern (text el) = Some m
         /\ (Py.all_chars Py.is_digit m = true ->
             (String.length m <= Py.max_str_digits)%nat ->
             _set_dict_value data key (Some el) "number"
             = (dict_set data key (VInt (Py.int_value m)), Ok tt))
         /\ (forall ip fp,
                m = ip ++ "." ++ fp ->
                Py.all_chars Py.is_digit ip = true ->
                Py.all_chars Py.is_digit fp = true ->
                ip ++ fp <> EmptyString ->
                _set_dict_value data key (Some el) "number"
                = (dict_set data key
                     (VFloat (Qred (Qmake (Py.int_value (ip ++ fp))
                        (Z.to_pos (10 ^ Z.of_nat (String.length fp)))))),
                   Ok tt))).
Proof.
  split.
  - intros H. rewrite set_dict_value_number.
    now rewrite number_pattern_none.
  - intros pre m post Ht Hpre Hne Hm Hpost.
    assert (Hrun : _number_pattern (text el) = Some m).
    { rewrite Ht. now apply number_pattern_run. }
    split; [exact Hrun|]. split.
    + intros Hd Hlen. rewrite set_dict_value_number, Hrun.
      apply digits_are_number_chars in Hd. destruct Hd as [_ Hd].
      now rewrite Hd, int_within_limit.
    + intros ip fp -> Hi Hf Hnz.
      rewrite set_dict_value_number, Hrun.
      change (ip ++ "." ++ fp) with (ip ++ String "." fp) at 1.
      rewrite has_char_app. now rewrite float_decimal.
Qed.

Lemma number_extraction_witness :
  _set_dict_value default_data "price"
    (Some (Sample.leaf "p" (Some ["price_color"]) (Sample.pound ++ "51.77")))
    "number"
  = (dict_set default_data "price" (VFloat (Qmake 5177 100)), Ok tt)
  /\ _set_dict_value default_data "available"
       (Some (Sample.leaf "p" None "In stock (22 available)")) "number"
     = (dict_set default_data "available" (VInt 22), Ok tt)
  /\ _set_dict_value default_data "available"
       (Some (Sample.leaf "p" None "In stock")) "number"
     = (default_data, Ok tt).
Proof.
  split; [|split].
  - destruct (number_extraction default_data "price"
                (Sample.leaf "p" (Some ["price_color"])
                             (Sample.pound ++ "51.77"))) as [_ H].
    destruct (H Sample.pound "51.77" EmptyString eq_refl eq_refl
                ltac:(discriminate) eq_refl I) as [_ [_ Hf]].
    exact (Hf "51" "77" eq_refl eq_refl eq_refl ltac:(discriminate)).
  - destruct (number_extraction default_data "available"
                (Sample.leaf "p" None "In stock (22 available)")) as [_ H].
    destruct (H "In stock (" "22" " available)" eq_refl eq_refl
                ltac:(discriminate) eq_refl eq_refl) as [_ [Hi _]].
    assert (Hlen : (String.length "22" <= Py.max_str_digits)%nat)
      by (unfold Py.max_str_digits; simpl; lia).
    exact (Hi eq_refl Hlen).
  - exact (proj1 (number_extraction default_data "available"
                    (Sample.leaf "p" None "In stock")) eq_refl).
Defined.

(** C2: on a price paragraph reading 1.2.3 the run the extractor takes
    is the whole of 1.2.3, and on an availability paragraph reading
    "In stock." it is the lone point; in both cases the call raises
    [ValueError] instead of giving a float, an integer or nothing, and
    [get_book_data] raises with it. *)
Lemma number_run_with_two_points :
  _number_pattern "1.2.3" = Some "1.2.3"
  /\ _set_dict_value default_data "price"
       (Some (Sample.leaf "p" (Some ["price_color"]) "1.2.3")) "number"
     = (default_data, Raise ValueError)
  /\ _number_pattern "In stock." = Some "."
  /\ _set_dict_value default_data "available"
       (Some (Sample.leaf "p" (Some ["instock"; "availability"])
                          "In stock.")) "number"
     = (default_data, Raise ValueError)
  /\ get_book_data
       (fun _ => Response 200
          (Sample.document
             [Sample.product_page "1.2.3" ["star-rating"; "Three"]])) "u"
     = Raise ValueError.
Proof. repeat (split; [reflexivity|]). reflexivity. Qed.

(** ** The page count *)

Lemma prefix_app (p s : string) :
  String.prefix p s = true -> s = p ++ Py.skip (String.length p) s.
Proof.
  revert s. induction p as [|a p IH]; intros s.
  - intros _. reflexivity.
  - destruct s as [|b s]; simpl; [discriminate|].
    destruct (ascii_dec a b) as [->|_]; [|discriminate].
    intros H. f_equal. now apply IH.
Qed.

Lemma prefix_of (x : string) :
  String.prefix "of " (String "o" (String "f" (String " " x))) = true.
Proof. destruct x; reflexivity. Qed.

Lemma take_while_head (p : ascii -> bool) (s : string) (d : ascii)
      (x : string) :
  Py.take_while p s = String d x ->
  p d = true /\ exists rest, s = String d rest.
Proof.
  destruct s as [|c s]; simpl; [discriminate|].
  destruct (p c) eqn:E; [|discriminate].
  intros H; inversion H; subst. split; auto. now exists s.
Qed.

Lemma pages_pattern_unfold (c : ascii) (t : string) :
  pages_pattern (String c t)
  = if String.prefix "of " (String c t) then
      match Py.take_while Py.is_digit (Py.skip 3 (String c t)) with
      | EmptyString => pages_pattern t
      | ds => Some ds
      end
    else pages_pattern t.
Proof. reflexivity. Qed.

Lemma pages_pattern_none (s : string) :
  (forall pre d rest, Py.is_digit d = true ->
                      s <> pre ++ "of " ++ String d rest) ->
  pages_pattern s = None.
Proof.
  induction s as [|c t IH]; intros H; [reflexivity|].
  assert (Ht : pages_pattern t = None).
  { apply IH. intros pre d rest Hd E.
    apply (H (String c pre) d rest Hd).
    change (String c t = String c (pre ++ "of " ++ String d rest)).
    now rewrite E. }
  rewrite pages_pattern_unfold.
  destruct (String.prefix "of " (String c t)) eqn:Ep; [|exact Ht].
  destruct (Py.take_while Py.is_digit (Py.skip 3 (String c t)))
    as [|d x] eqn:Ed; [exact Ht|].
  exfalso. apply take_while_head in Ed. destruct Ed as [Hd [rest Er]].
  apply prefix_app in Ep. simpl String.length in Ep. rewrite Er in Ep.
  exact (H EmptyString d rest Hd Ep).
Qed.

Lemma pages_pattern_leftmost (pre ds rest : string) :
  ds <> EmptyString ->
  Py.all_chars Py.is_digit ds = true ->
  stops Py.is_digit rest ->
  (forall pre' d rest',
      Py.is_digit d = true ->
      pre ++ "of " ++ ds ++ rest = pre' ++ "of " ++ String d rest' ->
      (String.length pre <= String.length pre')%nat) ->
  pages_pattern (pre ++ "of " ++ ds ++ rest) = Some ds.
Proof.
  intros Hne Hds Hrest. induction pre as [|c pre IH]; intros Hleft.
  - change (EmptyString ++ "of " ++ ds ++ rest)
      with (String "o" (String "f" (String " " (ds ++ rest)))).
    rewrite pages_pattern_unfold.
    rewrite prefix_of.
    change (Py.skip 3 (String "o" (String "f" (String " " (ds ++ rest)))))
      with (ds ++ rest).
    rewrite take_while_app by assumption.
    destruct ds; [congruence | reflexivity].
  - change (String c pre ++ "of " ++ ds ++ rest)
      with (String c (pre ++ "of " ++ ds ++ rest)).
    assert (Ht : pages_pattern (pre ++ "of " ++ ds ++ rest) = Some ds).
    { apply IH. intros pre' d rest' Hd E.
      assert (E' : String c pre ++ "of " ++ ds ++ rest
                   = String c pre' ++ "of " ++ String d rest').
      { change (String c (pre ++ "of " ++ ds ++ rest)
                = String c (pre' ++ "of " ++ String d rest')).
        now rewrite E. }
      specialize (Hleft (String c pre') d rest' Hd E').
      simpl String.length in Hleft. lia. }
    rewrite pages_pattern_unfold.
    destruct (String.prefix "of " (String c (pre ++ "of " ++ ds ++ rest)))
      eqn:Ep; [|exact Ht].
    destruct (Py.take_while Py.is_digit
                (Py.skip 3 (String c (pre ++ "of " ++ ds ++ rest))))
      as [|d x] eqn:Ed; [exact Ht|].
    exfalso. apply take_while_head in Ed. destruct Ed as [Hd [rest' Er]].
    apply prefix_app in Ep. simpl String.length in Ep. rewrite Er in Ep.
    specialize (Hleft EmptyString d rest' Hd Ep).
    simpl String.length in Hleft. lia.
Qed.

Lemma match_position_unfold (c : ascii) (t : string) :
  match_position (String c t)
  = if String.prefix "of " (String c t) then
      match Py.take_while Py.is_digit (Py.skip 3 (String c t)) with
      | EmptyString => option_map S (match_position t)
      | _ => Some O
      end
    else option_map S (match_position t).
Proof. reflexivity. Qed.

Lemma match_position_le (pre rest : string) (d : ascii) :
  Py.is_digit d = true ->
  exists n, match_position (pre ++ "of " ++ String d rest) = Some n
            /\ (n <= String.length pre)%nat.
Proof.
  intros Hd. induction pre as [|c pre [n [IH Hn]]].
  - exists O. split; [|simpl; lia].
    change (EmptyString ++ "of " ++ String d rest)
      with (String "o" (String "f" (String " " (String d rest)))).
    rewrite match_position_unfold.
    rewrite prefix_of.
    change (Py.skip 3 (String "o" (String "f" (String " " (String d rest)))))
      with (String d rest).
    cbn [Py.take_while]. now rewrite Hd.
  - change (String c pre ++ "of " ++ String d rest)
      with (String c (pre ++ "of " ++ String d rest)).
    rewrite match_position_unfold.
    destruct (String.prefix "of " (String c (pre ++ "of " ++ String d rest))).
    + destruct (Py.take_while Py.is_digit
                  (Py.skip 3 (String c (pre ++ "of " ++ String d rest)))).
      * rewrite IH. exists (S n). simpl. split; [reflexivity | lia].
      * exists O. split; [reflexivity | lia].
    + rewrite IH. exists (S n). simpl. split; [reflexivity | lia].
Qed.

Lemma leftmost_by_search (s pre' rest' : string) (d : ascii) (n : nat) :
  Py.is_digit d = true ->
  s = pre' ++ "of " ++ String d rest' ->
  match_position s = Some n ->
  (n <= String.length pre')%nat.
Proof.
  intros Hd -> Hn.
  destruct (match_position_le pre' rest' d Hd) as [m [Hm Hle]].
  rewrite Hm in Hn. inversion Hn; subst. exact Hle.
Qed.

Lemma pages_pattern_finds (pre rest : string) (d : ascii) :
  Py.is_digit d = true ->
  pages_pattern (pre ++ "of " ++ String d rest) <> None.
Proof.
  intros Hd. induction pre as [|c pre IH].
  - change (EmptyString ++ "of " ++ String d rest)
      with (String "o" (String "f" (String " " (String d rest)))).
    rewrite pages_pattern_unfold.
    rewrite prefix_of.
    change (Py.skip 3 (String "o" (String "f" (String " " (String d rest)))))
      with (String d rest).
    cbn [Py.take_while]. rewrite Hd. discriminate.
  - change (String c pre ++ "of " ++ String d rest)
      with (String c (pre ++ "of " ++ String d rest)).
    rewrite pages_pattern_unfold.
    destruct (String.prefix "of " (String c (pre ++ "of " ++ String d rest)));
      [|exact IH].
    destruct (Py.take_while Py.is_digit
                (Py.skip 3 (String c (pre ++ "of " ++ String d rest))));
      [exact IH | discriminate].
Qed.

(** Where [_get_pages_count] returns: it gives 0 when the fetch of
    page 1 fails, when the indicator node is missing, and when its text
    has no ["of "] followed by a digit; otherwise, when the digits after
    the first such ["of "] are within the digit limit, it gives the
    integer they spell; the text "Page 1 of 50" gives 50. *)
Theorem pages_count_cases (w : web) :
  (w (page_url 1) = Unreachable -> _get_pages_count w = Ok 0)
  /\ (forall status_code soup,
         w (page_url 1) = Response status_code soup ->
         400 <= status_code < 600 -> _get_pages_count w = Ok 0)
  /\ (forall e, _get_page_soup w 1 = Raise e -> _get_pages_count w = Ok 0)
  /\ (forall soup,
         _get_page_soup w 1 = Ok soup ->
         get_tag soup "li" (CStr "current") = None ->
         _get_pages_count w = Ok 0)
  /\ (forall soup counter_elem,
         _get_page_soup w 1 = Ok soup ->
         get_tag soup "li" (CStr "current") = Some counter_elem ->
         ((forall pre d rest,
              Py.is_digit d = true ->
              text counter_elem <> pre ++ "of " ++ String d rest) ->
          _get_pages_count w = Ok 0)
         /\ (forall pre ds rest,
                text counter_elem = pre ++ "of " ++ ds ++ rest ->
                ds <> EmptyString ->
                Py.all_chars Py.is_digit ds = true ->
                stops Py.is_digit rest ->
                (forall pre' d rest',
                    Py.is_digit d = true ->
                    text counter_elem = pre' ++ "of " ++ String d rest' ->
                    (String.length pre <= String.length pre')%nat) ->
                (String.length ds <= Py.max_str_digits)%nat ->
                _get_pages_count w = Ok (Py.int_value ds))
         /\ (text counter_elem = "Page 1 of 50" ->
             _get_pages_count w = Ok 50)).
Proof.
  assert (Hraise : forall e, _get_page_soup w 1 = Raise e ->
                             _get_pages_count w = Ok 0).
  { intros e H. unfold _get_pages_count. now rewrite H. }
  split; [|split; [|split; [|split]]].
  - intros H. apply (Hraise ConnectionError).
    unfold _get_page_soup, requests_get. now rewrite H.
  - intros st soup H Hst. apply (Hraise HTTPError).
    unfold _get_page_soup, requests_get. rewrite H. cbn [res_bind].
    unfold raise_for_status.
    replace (Z.leb 400 st) with true by (symmetry; apply Z.leb_le; lia).
    replace (Z.ltb st 600) with true by (symmetry; apply Z.ltb_lt; lia).
    reflexivity.
  - exact Hraise.
  - intros soup Hs Hli. unfold _get_pages_count. now rewrite Hs, Hli.
  - intros soup el Hs Hli. unfold _get_pages_count. rewrite Hs, Hli.
    split; [|split].
    + intros H. now rewrite pages_pattern_none.
    + intros pre ds rest Ht Hne Hds Hrest Hleft Hlen. rewrite Ht.
      rewrite pages_pattern_leftmost; auto.
      * now apply int_within_limit.
      * intros pre' d rest' Hd E. apply (Hleft pre' d rest' Hd).
        now rewrite Ht.
    + intros ->. reflexivity.
Qed.

Lemma pages_count_cases_witness :
  _get_pages_count Sample.offline = Ok 0
  /\ _get_pages_count (fun _ => Response 503 (Sample.document [])) = Ok 0
  /\ _get_pages_count (fun _ => Response 200 (Sample.document [])) = Ok 0
  /\ _get_pages_count
       (fun _ => Response 200
          (Sample.document [Sample.leaf "li" (Some ["current"]) "Page one"]))
     = Ok 0
  /\ _get_pages_count
       (fun _ => Response 200
          (Sample.document
             [Sample.leaf "li" (Some ["current"]) " Page 1 of 50 items "]))
     = Ok 50
  /\ _get_pages_count
       (fun _ => Response 200
          (Sample.document
             [Sample.leaf "li" (Some ["current"]) "Page 1 of 50"]))
     = Ok 50.
Proof.
  split; [|split; [|split; [|split; [|split]]]].
  - apply (proj1 (pages_count_cases Sample.offline)). reflexivity.
  - apply (proj1 (proj2 (pages_count_cases
                           (fun _ => Response 503 (Sample.document []))))
             503 (Sample.document []) eq_refl).
    lia.
  - apply (proj1 (proj2 (proj2 (proj2 (pages_count_cases
                           (fun _ => Response 200 (Sample.document []))))))
             (Sample.document []) eq_refl eq_refl).
  - destruct (proj2 (proj2 (proj2 (proj2 (pages_count_cases
       (fun _ => Response 200
          (Sample.document
             [Sample.leaf "li" (Some ["current"]) "Page one"]))))))
       _ _ eq_refl eq_refl) as [H _].
    apply H. intros pre d rest Hd E.
    apply (pages_pattern_finds pre rest d Hd).
    rewrite <- E. reflexivity.
  - destruct (proj2 (proj2 (proj2 (proj2 (pages_count_cases
       (fun _ => Response 200
          (Sample.document
             [Sample.leaf "li" (Some ["current"]) " Page 1 of 50 items "]))))))
       _ _ eq_refl eq_refl) as [_ [H _]].
    apply (H " Page 1 " "50" " items " eq_refl ltac:(discriminate)
             eq_refl eq_refl).
    + intros pre' d rest' Hd E.
      apply (leftmost_by_search _ pre' rest' d 8%nat Hd E). reflexivity.
    + unfold Py.max_str_digits. simpl. lia.
  - destruct (proj2 (proj2 (proj2 (proj2 (pages_count_cases
       (fun _ => Response 200
          (Sample.document
             [Sample.leaf "li" (Some ["current"]) "Page 1 of 50"]))))))
       _ _ eq_refl eq_refl) as [_ [_ H]].
    exact (H eq_refl).
Defined.

(** C4: on a page 1 whose indicator reads "Page 1 of " followed by
    4301 nines, the search finds the 4301 digits and their conversion,
    which is outside the [try], raises [ValueError]:
    [_get_pages_count] raises instead of returning the number, or 0 as
    its documentation has it for an error, and [scrape_books] raises
    with it. *)
Lemma pages_count_beyond_digit_limit :
  pages_pattern ("Page 1 of " ++ Sample.nines 4301)
  = Some (Sample.nines 4301)
  /\ String.length (Sample.nines 4301) = 4301%nat
  /\ _get_pages_count Sample.endless = Raise ValueError
  /\ fst (scrape_books one_by_one Sample.some_repr "/srv/app"
                       Sample.endless false Sample.no_files)
     = Raise ValueError.
Proof. repeat (split; [vm_compute; reflexivity|]). vm_compute. reflexivity. Qed.

(** ** Batches and pages *)

Lemma range_from_app (a b : nat) (s : Z) :
  range_from (a + b) s 1
  = (range_from a s 1 ++ range_from b (s + Z.of_nat a) 1)%list.
Proof.
  revert s. induction a as [|a IH]; intros s.
  - simpl. f_equal. lia.
  - cbn [Nat.add range_from app]. rewrite IH. do 3 f_equal. lia.
Qed.

Lemma batch_pages_range (k : nat) (a s pages_count : Z) :
  batch_pages (range_from k a 1) s pages_count
  = range_from (Z.to_nat (Z.min (Z.of_nat k) (pages_count - s - a + 1)))
               (s + a) 1.
Proof.
  revert a. induction k as [|k IH]; intros a.
  - cbn [range_from batch_pages].
    replace (Z.to_nat _) with O by lia. reflexivity.
  - cbn [range_from batch_pages].
    destruct (Z.gtb_spec (s + a) pages_count) as [Hgt|Hle].
    + replace (Z.to_nat _) with O by lia. reflexivity.
    + rewrite IH.
      replace (Z.to_nat (Z.min (Z.of_nat (S k)) (pages_count - s - a + 1)))
        with (S (Z.to_nat (Z.min (Z.of_nat k)
                                 (pages_count - s - (a + 1) + 1)))) by lia.
      cbn [range_from]. do 2 f_equal. lia.
Qed.

Lemma batch_pages_25 (s pages_count : Z) :
  batch_pages (range 0 threads_number 1) s pages_count
  = range_from (Z.to_nat (Z.min 25 (pages_count - s + 1))) s 1.
Proof.
  change (range 0 threads_number 1) with (range_from 25 0 1).
  rewrite batch_pages_range. f_equal; [f_equal; lia | lia].
Qed.

Lemma batches_cover (pages_count : Z) (n : nat) (s : Z) :
  n = Z.to_nat ((pages_count + 1 - s + 24) / 25) ->
  List.concat (map (fun p => batch_pages (range 0 threads_number 1)
                                         p pages_count)
                   (range_from n s 25))
  = range_from (Z.to_nat (pages_count + 1 - s)) s 1.
Proof.
  revert s. induction n as [|n IH]; intros s Hn.
  - assert ((pages_count + 1 - s + 24) / 25 <= 0) by lia.
    assert (pages_count + 1 - s + 24 < 25).
    { apply Z.nle_gt. intros Hc.
      assert (1 <= (pages_count + 1 - s + 24) / 25)
        by (apply Z.div_le_lower_bound; lia).
      lia. }
    replace (Z.to_nat (pages_count + 1 - s)) with O by lia. reflexivity.
  - assert (Hq : (pages_count + 1 - s + 24) / 25
                 = (pages_count + 1 - (s + 25) + 24) / 25 + 1).
    { rewrite <- Z.div_add by lia. f_equal. lia. }
    assert (Hpos : 0 < (pages_count + 1 - s + 24) / 25) by lia.
    assert (Hs : s <= pages_count).
    { apply Z.nlt_ge. intros Hc.
      assert ((pages_count + 1 - s + 24) / 25 <= 0).
      { apply Z.lt_succ_r. apply Z.div_lt_upper_bound; lia. }
      lia. }
    cbn [range_from map List.concat].
    rewrite IH by lia. rewrite batch_pages_25.
    destruct (Z.le_gt_cases 25 (pages_count - s + 1)) as [Hbig|Hsmall].
    + replace (Z.to_nat (Z.min 25 (pages_count - s + 1))) with 25%nat by lia.
      replace (Z.to_nat (pages_count + 1 - s))
        with (25 + Z.to_nat (pages_count + 1 - (s + 25)))%nat by lia.
      now rewrite range_from_app.
    + replace (Z.to_nat (pages_count + 1 - (s + 25))) with O by lia.
      cbn [range_from]. rewrite app_nil_r. f_equal. lia.
Qed.

Lemma batches_are_the_pages (pages_count : Z) :
  List.concat (map (fun p => batch_pages (range 0 threads_number 1)
                                         p pages_count)
                   (range 1 (pages_count + 1) threads_number))
  = catalogue_pages pages_count.
Proof.
  unfold catalogue_pages, range, threads_number.
  rewrite (batches_cover pages_count _ 1) by (f_equal; f_equal; lia).
  f_equal. rewrite Z.div_1_r. lia.
Qed.

(** ** Interleavings *)

Lemma concat_all_nil {A : Type} (ls : list (list A)) :
  Forall (fun l => l = []) ls -> List.concat ls = [].
Proof.
  induction 1 as [|l ls Hl _ IH]; simpl; auto. now rewrite Hl, IH.
Qed.

Lemma Interleave_Permutation {A : Type} (ls : list (list A)) (m : list A) :
  Interleave ls m -> Permutation m (List.concat ls).
Proof.
  induction 1 as [ls Hnil | ls1 x l ls2 m _ IH].
  - now rewrite concat_all_nil.
  - rewrite concat_app in *. simpl in *.
    now apply Permutation_cons_app.
Qed.

Lemma Interleave_skip_nil {A : Type} (ls : list (list A)) (m : list A) :
  Interleave ls m -> Interleave ([] :: ls) m.
Proof.
  induction 1 as [ls Hnil | ls1 x l ls2 m _ IH].
  - constructor. now constructor.
  - apply (Interleave_step ([] :: ls1) x l ls2 m). exact IH.
Qed.

Lemma Interleave_concat {A : Type} (ls : list (list A)) :
  Interleave ls (List.concat ls).
Proof.
  induction ls as [|l ls IH]; simpl.
  - constructor. constructor.
  - induction l as [|x l IHl]; simpl.
    + now apply Interleave_skip_nil.
    + apply (Interleave_step [] x l ls). exact IHl.
Qed.

(** ** The crawl *)

Lemma parse_headings_from_items (w : web) (headings : list PageElement)
      (book : dict) :
  In book (fst (parse_headings w headings)) ->
  exists href, get_book_data w (_root_url ++ href) = Ok book.
Proof.
  induction headings as [|heading rest IH]; cbn [parse_headings].
  - intros [].
  - destruct (get_tag heading "a" no_class) as [link|]; [|exact IH].
    destruct (getitem_href link) as [href|e]; [|intros []].
    destruct (String.eqb href EmptyString); [exact IH|].
    destruct (get_book_data w (_root_url ++ href)) as [b|e] eqn:E;
      [|intros []].
    destruct (parse_headings w rest) as [books outcome]. cbn [fst] in *.
    intros [<-|Hin]; [now exists href | auto].
Qed.

Lemma page_books_from_items (w : web) (page_number : Z) (book : dict) :
  In book (page_books w page_number) ->
  exists url, get_book_data w url = Ok book.
Proof.
  unfold page_books, thread_run, _parse_page.
  destruct (_get_page_soup w page_number) as [soup|e]; [|intros []].
  destruct (get_tag soup "ol" (CStr "row")) as [c|]; [|intros []].
  intros H. apply parse_headings_from_items in H.
  destruct H as [href H]. now exists (_root_url ++ href).
Qed.

Section CrawlFacts.

Variable schedule : Z -> list (list dict) -> list dict.
Hypothesis schedule_interleaves :
  forall page contributions,
    Interleave contributions (schedule page contributions).

Lemma run_batches_Permutation (w : web) (pages_count : Z)
      (starts : list Z) (acc : list dict) :
  Permutation
    (fold_left (run_batch schedule w pages_count) starts acc)
    (acc ++ List.concat
              (map (page_books w)
                   (List.concat
                      (map (fun p => batch_pages (range 0 threads_number 1)
                                                 p pages_count) starts)))).
Proof.
  revert acc. induction starts as [|s starts IH]; intros acc.
  - simpl. now rewrite app_nil_r.
  - cbn [fold_left map List.concat]. rewrite IH.
    unfold run_batch. rewrite map_app, concat_app, app_assoc.
    apply Permutation_app_tail. apply Permutation_app_head.
    rewrite map_map. apply Interleave_Permutation.
    apply schedule_interleaves.
Qed.

End CrawlFacts.

(** What [scrape_books] collects when the page count could be read: it
    returns, and what it returns is, up to order, what the workers of
    the pages [1..pages_count] appended; a catalogue page that cannot be
    fetched contributes nothing; every Record in the result is what
    [get_book_data] returned for some item. *)
Theorem scrape_books_collects
        (schedule : Z -> list (list dict) -> list dict)
        (float_repr : Q -> string) (current_dir : string)
        (w : web) (is_save : bool) (fs : files) (pages_count : Z) :
  (forall page contributions,
      Interleave contributions (schedule page contributions)) ->
  _get_pages_count w = Ok pages_count ->
  exists books,
    fst (scrape_books schedule float_repr current_dir w is_save fs) = Ok books
    /\ Permutation books
         (List.concat (map (page_books w) (catalogue_pages pages_count)))
    /\ (forall page_number e,
           _get_page_soup w page_number = Raise e ->
           _parse_page w page_number = ([], Ok tt))
    /\ (forall book, In book books ->
                     exists url, get_book_data w url = Ok book).
Proof.
  intros Hs Hc.
  exists (fold_left (run_batch schedule w pages_count)
                    (range 1 (pages_count + 1) threads_number) []).
  assert (Hperm : Permutation
            (fold_left (run_batch schedule w pages_count)
                       (range 1 (pages_count + 1) threads_number) [])
            (List.concat (map (page_books w) (catalogue_pages pages_count)))).
  { rewrite <- batches_are_the_pages.
    apply (run_batches_Permutation schedule Hs w _ _ []). }
  split; [|split; [exact Hperm|split]].
  - unfold scrape_books. rewrite Hc. now destruct is_save.
  - intros p e H. unfold _parse_page. now rewrite H.
  - intros book Hin.
    apply (Permutation_in _ Hperm) in Hin.
    apply in_concat in Hin. destruct Hin as [l [Hl Hin]].
    apply in_map_iff in Hl. destruct Hl as [p [<- _]].
    now apply page_books_from_items in Hin.
Qed.

Lemma scrape_books_collects_witness :
  exists books,
    fst (scrape_books one_by_one Sample.some_repr "/srv/app"
                      Sample.open_shop false Sample.no_files) = Ok books
    /\ Permutation books
         (List.concat (map (page_books Sample.open_shop) (catalogue_pages 1))).
Proof.
  destruct (scrape_books_collects one_by_one Sample.some_repr "/srv/app"
              Sample.open_shop false Sample.no_files 1)
    as [books [H1 [H2 _]]].
  - intros page contributions. apply Interleave_concat.
  - reflexivity.
  - now exists books.
Defined.

(** C5: on the sample site the first item of the only catalogue page
    cannot be fetched, the second can.  [get_book_data] raises for the
    first, the worker of the page has no [try] around that call and ends
    there: the result holds no default Record for the failed item, and
    the Record of the item after it is missing as well. *)
Lemma failed_item_leaves_no_record :
  get_book_data Sample.shop (_root_url ++ "gone/index.html")
  = Raise ConnectionError
  /\ (exists book, get_book_data Sample.shop Sample.book_url = Ok book)
  /\ _parse_page Sample.shop 1 = ([], Raise ConnectionError)
  /\ fst (scrape_books one_by_one Sample.some_repr "/srv/app"
                       Sample.shop false Sample.no_files) = Ok [].
Proof.
  split; [reflexivity|]. split; [|split; reflexivity].
  eexists. vm_compute. reflexivity.
Qed.

(** ** Persisting *)

(** C8: when persistence is requested and the result is empty, the run
    writes exactly [[]] to [books_data.txt] in the program's directory;
    whatever the file held before is gone, and no other file changes. *)
Theorem persist_empty_result
        (schedule : Z -> list (list dict) -> list dict)
        (float_repr : Q -> string) (current_dir : string)
        (w : web) (fs : files) :
  fst (scrape_books schedule float_repr current_dir w true fs) = Ok [] ->
  let after := snd (scrape_books schedule float_repr current_dir w true fs) in
  let path := path_join current_dir "books_data.txt" in
  after = write_file fs path "[]"
  /\ after path = Some "[]"
  /\ (forall other, other <> path -> after other = fs other).
Proof.
  unfold scrape_books.
  destruct (_get_pages_count w) as [pages_count|e]; [|discriminate].
  cbn [fst snd]. intros H. injection H as ->. cbv zeta.
  unfold file_path, write_file. cbn [Json.dumps]. repeat split.
  - now rewrite String.eqb_refl.
  - intros other H. destruct (String.eqb_spec other
      (path_join current_dir "books_data.txt")); [contradiction|reflexivity].
Qed.

Lemma persist_empty_result_witness :
  snd (scrape_books one_by_one Sample.some_repr "/srv/app" Sample.offline true
         (write_file Sample.no_files "/srv/app/books_data.txt" "[{}]"))
      "/srv/app/books_data.txt"
  = Some "[]".
Proof.
  apply (persist_empty_result one_by_one Sample.some_repr "/srv/app"
           Sample.offline
           (write_file Sample.no_files "/srv/app/books_data.txt" "[{}]")).
  reflexivity.
Defined.

(** * Further properties of the code *)

(** ** [get_tag] *)

Lemma find_first {A : Type} (f : A -> bool) (l : list A) (x : A) :
  List.find f l = Some x ->
  exists before after,
    l = (before ++ x :: after)%list
    /\ f x = true
    /\ forall y, In y before -> f y = false.
Proof.
  induction l as [|a l IH]; simpl; [discriminate|].
  destruct (f a) eqn:Ea.
  - intros H; inversion H; subst. exists [], l. repeat split; auto.
    intros y [].
  - intros H. destruct (IH H) as [before [after [-> [Hx Hb]]]].
    exists (a :: before), after. repeat split; auto.
    intros y [<-|Hy]; auto.
Qed.

(** What [get_tag] returns is a tag with the requested name that lies
    below the context, the first one in document order whose class fits:
    without a class name it has no class attribute at all, with one its
    attribute matches.  It returns nothing exactly when no element below
    the context fits. *)
Theorem get_tag_first_match (context : PageElement) (tag_name : string)
        (class_name : class_arg) :
  let class_ := if truthy class_name then Some class_name else None in
  (forall e,
      get_tag context tag_name class_name = Some e ->
      exists before after attr href contents,
        descendants context = (before ++ e :: after)%list
        /\ e = Tag tag_name attr href contents
        /\ class_matches class_ attr = true
        /\ (truthy class_name = false -> attr = None)
        /\ forall y, In y before -> tag_matches tag_name class_ y = false)
  /\ (get_tag context tag_name class_name = None <->
      forall y, In y (descendants context) ->
                tag_matches tag_name class_ y = false).
Proof.
  cbv zeta.
  assert (E : get_tag context tag_name class_name
              = List.find (tag_matches tag_name
                             (if truthy class_name then Some class_name
                              else None))
                          (descendants context)).
  { unfold get_tag, find. now destruct (truthy class_name). }
  rewrite E. split.
  - intros e H. apply find_first in H.
    destruct H as [before [after [Hd [He Hb]]]].
    destruct e as [s|n attr href contents]; [discriminate He|].
    simpl in He. apply andb_prop in He. destruct He as [Hn Hc].
    apply String.eqb_eq in Hn. subst n.
    exists before, after, attr, href, contents.
    repeat split; auto.
    intros Ht. rewrite Ht in Hc. now destruct attr.
  - split.
    + intros H y Hy. exact (find_none _ _ H y Hy).
    + intros H.
      destruct (List.find _ (descendants context)) as [x|] eqn:Ex; auto.
      apply find_some in Ex. destruct Ex as [Hin Hx].
      rewrite (H x Hin) in Hx. discriminate.
Qed.

Lemma get_tag_first_match_witness :
  (exists before after href contents,
      descendants Sample.book_page
      = (before ++ Tag "h1" None href contents :: after)%list
      /\ forall y, In y before -> tag_matches "h1" None y = false)
  /\ get_tag (Sample.document []) "h1" no_class = None.
Proof.
  split.
  - destruct (get_tag Sample.book_page "h1" no_class) as [e|] eqn:E;
      [|vm_compute in E; discriminate].
    destruct (proj1 (get_tag_first_match Sample.book_page "h1" no_class) e E)
      as [before [after [attr [href [contents [H1 [H2 [_ [H4 H5]]]]]]]]].
    rewrite (H4 eq_refl) in H2. subst e.
    now exists before, after, href, contents.
  - apply (proj2 (get_tag_first_match (Sample.document []) "h1" no_class)).
    intros y [].
Defined.

(** ** Text mode *)

Lemma rstrip_head (u : string) : stops Py.is_space u -> stops Py.is_space (Py.rstrip u).
Proof.
  destruct u as [|c t]; simpl; auto.
  intros Hc. destruct (Py.rstrip t); simpl; auto. now rewrite Hc.
Qed.

Lemma lstrip_stops (s : string) : stops Py.is_space (Py.lstrip s).
Proof.
  induction s as [|c t IH]; simpl; auto.
  destruct (Py.is_space c) eqn:E; simpl; auto.
Qed.

Lemma append_single_inv (a : string) (c d : ascii) :
  a ++ String c EmptyString = String d EmptyString -> a = EmptyString /\ c = d.
Proof.
  destruct a as [|x a]; simpl; intros H; inversion H; auto.
  destruct a; discriminate.
Qed.

Lemma rstrip_last (u a : string) (c : ascii) :
  Py.rstrip u = a ++ String c EmptyString -> Py.is_space c = false.
Proof.
  revert a. induction u as [|d t IH]; intros a; cbn [Py.rstrip].
  - destruct a; discriminate.
  - destruct (Py.rstrip t) as [|e t'] eqn:Et.
    + destruct (Py.is_space d) eqn:Ed.
      * destruct a; discriminate.
      * intros H. symmetry in H. apply append_single_inv in H.
        destruct H as [_ ->]. exact Ed.
    + destruct a as [|x a]; cbn [append].
      * discriminate.
      * intros H. inversion H; subst. now apply (IH a).
Qed.

Lemma rstrip_unfold (c : ascii) (t : string) :
  Py.rstrip (String c t)
  = match Py.rstrip t with
    | EmptyString => if Py.is_space c then EmptyString
                     else String c EmptyString
    | t' => String c t'
    end.
Proof. reflexivity. Qed.

Lemma rstrip_idempotent (u : string) : Py.rstrip (Py.rstrip u) = Py.rstrip u.
Proof.
  induction u as [|c t IH]; [reflexivity|].
  rewrite rstrip_unfold.
  destruct (Py.rstrip t) as [|e t'] eqn:Et.
  - destruct (Py.is_space c) eqn:Ec; [reflexivity|].
    rewrite rstrip_unfold. cbn [Py.rstrip]. now rewrite Ec.
  - rewrite rstrip_unfold. now rewrite IH.
Qed.

Lemma lstrip_fixed (s : string) : stops Py.is_space s -> Py.lstrip s = s.
Proof.
  destruct s as [|c t]; simpl; auto. now intros ->.
Qed.

(** The value text mode writes is trimmed: it neither starts nor ends
    with a whitespace character, and trimming it again changes nothing. *)
Theorem text_mode_trimmed (data : dict) (key : string) (el : PageElement) :
  exists s,
    _set_dict_value data key (Some el) "text"
    = (dict_set data key (VStr s), Ok tt)
    /\ stops Py.is_space s
    /\ (forall a c, s = a ++ String c EmptyString -> Py.is_space c = false)
    /\ Py.strip s = s.
Proof.
  exists (Py.strip (text el)). split; [reflexivity|].
  assert (Hhead : stops Py.is_space (Py.strip (text el))).
  { unfold Py.strip. apply rstrip_head. apply lstrip_stops. }
  split; [exact Hhead|]. split.
  - intros a c H. unfold Py.strip in H. now apply rstrip_last in H.
  - unfold Py.strip at 1. rewrite (lstrip_fixed _ Hhead).
    unfold Py.strip. apply rstrip_idempotent.
Qed.

Lemma text_mode_trimmed_witness :
  exists s,
    _set_dict_value default_data "title"
      (Some (Sample.leaf "h1" None "  A Light in the Attic ")) "text"
    = (dict_set default_data "title" (VStr s), Ok tt)
    /\ Py.strip s = s.
Proof.
  destruct (text_mode_trimmed default_data "title"
              (Sample.leaf "h1" None "  A Light in the Attic "))
    as [s [H1 [_ [_ H4]]]].
  now exists s.
Defined.

(** ** Numeric mode: what the search returns and when the call raises *)

Lemma drop_while_split (p : ascii -> bool) (s : string) :
  exists pre, s = pre ++ Py.drop_while p s /\ Py.all_chars p pre = true.
Proof.
  induction s as [|c t [pre [IH Hpre]]]; cbn [Py.drop_while].
  - now exists EmptyString.
  - destruct (p c) eqn:E.
    + exists (String c pre). cbn [append Py.all_chars].
      rewrite E, Hpre. split; [now rewrite <- IH | reflexivity].
    + now exists EmptyString.
Qed.

Lemma take_while_split (p : ascii -> bool) (s : string) :
  exists rest,
    s = Py.take_while p s ++ rest
    /\ Py.all_chars p (Py.take_while p s) = true
    /\ stops p rest.
Proof.
  induction s as [|c t [rest [IH [Hall Hrest]]]]; cbn [Py.take_while].
  - now exists EmptyString.
  - destruct (p c) eqn:E.
    + exists rest. cbn [append Py.all_chars]. rewrite E, Hall.
      repeat split; [now rewrite <- IH | exact Hrest].
    + exists (String c t). repeat split. exact E.
Qed.

Lemma take_drop_while (p : ascii -> bool) (s : string) :
  s = Py.take_while p s ++ Py.drop_while p s.
Proof.
  induction s as [|c t IH]; cbn [Py.take_while Py.drop_while]; auto.
  destruct (p c); cbn [append]; [now rewrite <- IH | reflexivity].
Qed.

Lemma drop_while_stops_at (p : ascii -> bool) (s : string) :
  stops p (Py.drop_while p s).
Proof.
  induction s as [|c t IH]; cbn [Py.drop_while]; [exact I|].
  destruct (p c) eqn:E; [exact IH | exact E].
Qed.

Lemma all_chars_app (p : ascii -> bool) (a b : string) :
  Py.all_chars p (a ++ b) = (Py.all_chars p a && Py.all_chars p b)%bool.
Proof.
  induction a as [|c a IH]; cbn [append Py.all_chars]; auto.
  now rewrite IH, andb_assoc.
Qed.

Lemma number_pattern_sound (s m : string) :
  _number_pattern s = Some m ->
  m <> EmptyString
  /\ Py.all_chars is_number_char m = true
  /\ exists pre post,
       s = pre ++ m ++ post
       /\ Py.all_chars (fun c => negb (is_number_char c)) pre = true
       /\ stops is_number_char post.
Proof.
  unfold _number_pattern.
  destruct (drop_while_split (fun c => negb (is_number_char c)) s)
    as [pre [Hs Hpre]].
  pose proof (drop_while_stops_at (fun c => negb (is_number_char c)) s)
    as Hstop.
  destruct (Py.drop_while (fun c => negb (is_number_char c)) s)
    as [|c rest] eqn:Ed; [discriminate|].
  intros H. injection H as <-.
  cbn [stops] in Hstop. apply negb_false_iff in Hstop.
  destruct (take_while_split is_number_char (String c rest))
    as [post [Hr [Hall Hpost]]].
  split.
  - cbn [Py.take_while]. rewrite Hstop. discriminate.
  - split; [exact Hall|]. exists pre, post.
    split; [|split; assumption]. rewrite Hs at 1. now rewrite Hr at 1.
Qed.

Lemma number_pattern_absent (s : string) :
  _number_pattern s = None ->
  Py.all_chars (fun c => negb (is_number_char c)) s = true.
Proof.
  unfold _number_pattern.
  destruct (drop_while_split (fun c => negb (is_number_char c)) s)
    as [pre [Hs Hpre]].
  destruct (Py.drop_while (fun c => negb (is_number_char c)) s)
    as [|c rest] eqn:Ed; [|discriminate].
  intros _. rewrite Hs. rewrite all_chars_app, Hpre. reflexivity.
Qed.

(** The search of numeric mode is exact: a result is a non-empty run of
    digits and points, nothing before it in the text is a digit or a
    point, and the run stops only at the end of the text or at another
    character; no result means the text has neither digit nor point. *)
Theorem number_pattern_first_run (s : string) :
  (forall m,
      _number_pattern s = Some m ->
      m <> EmptyString
      /\ Py.all_chars is_number_char m = true
      /\ exists pre post,
           s = pre ++ m ++ post
           /\ Py.all_chars (fun c => negb (is_number_char c)) pre = true
           /\ stops is_number_char post)
  /\ (_number_pattern s = None ->
      Py.all_chars (fun c => negb (is_number_char c)) s = true).
Proof.
  split; [intros m; apply number_pattern_sound | apply number_pattern_absent].
Qed.

Lemma number_pattern_first_run_witness :
  exists pre post,
    "In stock (22 available)" = pre ++ "22" ++ post
    /\ Py.all_chars (fun c => negb (is_number_char c)) pre = true
    /\ stops is_number_char post.
Proof.
  destruct (proj1 (number_pattern_first_run "In stock (22 available)")
              "22" eq_refl) as [_ [_ H]].
  exact H.
Defined.

Lemma digits_no_point (s : string) :
  Py.all_chars Py.is_digit s = true -> Py.has_char "." s = false.
Proof. intros H. now apply digits_are_number_chars in H. Qed.

Lemma float_accepts (m : string) (q : Q) :
  Py.all_chars is_number_char m = true ->
  Py.has_char "." m = true ->
  float m = Ok q -> decimal_literal m.
Proof.
  intros Hall Hpoint. unfold float.
  pose proof (take_drop_while Py.is_digit m) as Hm.
  destruct (take_while_split Py.is_digit m) as [_ [_ [Hip _]]].
  pose proof (drop_while_stops_at Py.is_digit m) as Hstop.
  destruct (Py.drop_while Py.is_digit m) as [|c fp] eqn:Ed.
  - exfalso. rewrite Hm in Hpoint.
    assert (E : Py.take_while Py.is_digit m ++ EmptyString
                = Py.take_while Py.is_digit m).
    { clear. induction (Py.take_while Py.is_digit m); simpl; congruence. }
    rewrite E in Hpoint. rewrite (digits_no_point _ Hip) in Hpoint.
    discriminate.
  - cbn [Py.skip].
    destruct (Py.all_chars Py.is_digit fp) eqn:Hfp; [|discriminate].
    destruct (String.eqb_spec (Py.take_while Py.is_digit m ++ fp)
                              EmptyString) as [|Hne]; [discriminate|].
    intros _.
    assert (Hc : c = "."%char).
    { rewrite Hm in Hall. rewrite all_chars_app in Hall.
      apply andb_prop in Hall. destruct Hall as [_ Hall].
      cbn [Py.all_chars] in Hall. apply andb_prop in Hall.
      destruct Hall as [Hc _]. unfold is_number_char in Hc.
      simpl in Hstop. rewrite Hstop in Hc. cbn [orb] in Hc.
      now apply Ascii.eqb_eq in Hc. }
    subst c. exists (Py.take_while Py.is_digit m), fp.
    repeat split; auto.
Qed.

Lemma float_raises_ValueError (m : string) (e : exn) :
  float m = Raise e -> e = ValueError.
Proof.
  unfold float. destruct (_ && _)%bool; [discriminate|].
  intros H; now inversion H.
Qed.

(** Numeric mode raises only [ValueError], and exactly in two cases:
    the run it found holds a point without being digits, one point,
    digits (with a digit somewhere), or it holds no point and has more
    digits than [int] accepts; the dictionary is then as it was. *)
Theorem number_mode_raises (data : dict) (key : string) (el : PageElement) :
  (forall e,
      snd (_set_dict_value data key (Some el) "number") = Raise e ->
      e = ValueError
      /\ fst (_set_dict_value data key (Some el) "number") = data
      /\ exists m,
           _number_pattern (text el) = Some m
           /\ ((Py.has_char "." m = true /\ ~ decimal_literal m)
               \/ (Py.has_char "." m = false
                   /\ (Py.max_str_digits < String.length m)%nat)))
  /\ (forall m,
         _number_pattern (text el) = Some m ->
         (Py.has_char "." m = true /\ ~ decimal_literal m)
         \/ (Py.has_char "." m = false
             /\ (Py.max_str_digits < String.length m)%nat) ->
         _set_dict_value data key (Some el) "number"
         = (data, Raise ValueError)).
Proof.
  rewrite set_dict_value_number. split.
  - intros e.
    destruct (_number_pattern (text el)) as [m|] eqn:Em; [|discriminate].
    destruct (Py.has_char "." m) eqn:Hp.
    + destruct (float m) as [q|e'] eqn:Ef; [discriminate|].
      cbn [fst snd]. intros H; inversion H; subst e'.
      split; [now apply float_raises_ValueError in Ef|].
      split; [reflexivity|]. exists m. split; [reflexivity|]. left.
      split; [exact Hp|].
      intros (ip & fp & -> & Hi & Hf & Hne).
      rewrite float_decimal in Ef by assumption. discriminate.
    + destruct (Py.int m) as [z|e'] eqn:Ei; [discriminate|].
      cbn [fst snd]. intros H; inversion H; subst e'.
      destruct (int_outcome m _ Ei) as [[Hr _]|[Hr Hlen]]; [discriminate|].
      split; [congruence|]. split; [reflexivity|].
      exists m. split; [reflexivity|]. right. split; [exact Hp | exact Hlen].
  - intros m Em [[Hp Hbad]|[Hp Hlen]]; rewrite Em, Hp.
    + destruct (float m) as [q|e] eqn:Ef.
      * exfalso. apply Hbad. apply (float_accepts m q); auto.
        destruct (number_pattern_sound (text el) m Em) as [_ [Hall _]].
        exact Hall.
      * now rewrite (float_raises_ValueError m e Ef).
    + now rewrite int_beyond_limit.
Qed.

Lemma number_mode_raises_witness :
  (exists m,
      _number_pattern "1.2.3" = Some m
      /\ ((Py.has_char "." m = true /\ ~ decimal_literal m)
          \/ (Py.has_char "." m = false
              /\ (Py.max_str_digits < String.length m)%nat)))
  /\ _set_dict_value default_data "available"
       (Some (Sample.leaf "p" None (Sample.nines 4301))) "number"
     = (default_data, Raise ValueError).
Proof.
  split.
  - destruct (proj1 (number_mode_raises default_data "price"
                       (Sample.leaf "p" (Some ["price_color"]) "1.2.3"))
                ValueError eq_refl) as [_ [_ H]].
    exact H.
  - apply (proj2 (number_mode_raises default_data "available"
                    (Sample.leaf "p" None (Sample.nines 4301)))
             (Sample.nines 4301)).
    + vm_compute. reflexivity.
    + right. split; [vm_compute; reflexivity|].
      unfold Py.max_str_digits.
      replace (String.length (Sample.nines 4301)) with 4301%nat
        by (vm_compute; reflexivity).
      lia.
Defined.

(** ** Rating mode: when the call raises *)

Lemma mem_index (x : string) (t : list string) :
  Py.mem x t = true -> exists i, Py.index x t = Some i.
Proof.
  induction t as [|y t IH]; cbn [Py.mem existsb Py.index].
  - discriminate.
  - rewrite String.eqb_sym. destruct (String.eqb y x).
    + intros _. now exists 0.
    + cbn [orb]. intros H. destruct (IH H) as [i Hi].
      rewrite Hi. now exists (Z.succ i).
Qed.

(** In rating mode a tag without a class attribute makes the call raise
    [KeyError], a tag with fewer than two class tokens makes it raise
    [IndexError], and a tag with at least two tokens never makes it
    raise; in each case of failure the dictionary is as it was. *)
Theorem rating_mode_raises (data : dict) (key : string)
        (name : string) (href : option string) (contents : list PageElement) :
  _set_dict_value data key (Some (Tag name None href contents)) "rating"
  = (data, Raise KeyError)
  /\ (forall toks,
         (List.length toks < 2)%nat ->
         _set_dict_value data key
           (Some (Tag name (Some toks) href contents)) "rating"
         = (data, Raise IndexError))
  /\ (forall toks,
         (2 <= List.length toks)%nat ->
         snd (_set_dict_value data key
                (Some (Tag name (Some toks) href contents)) "rating")
         = Ok tt).
Proof.
  split; [reflexivity|]. split.
  - intros toks Hlen.
    destruct toks as [|a [|b toks]]; [reflexivity | reflexivity|].
    simpl in Hlen. lia.
  - intros toks Hlen.
    destruct toks as [|a [|b toks]]; [simpl in Hlen; lia | simpl in Hlen; lia|].
    rewrite (set_dict_value_rating data key
               (Tag name (Some (a :: b :: toks)) href contents)
               (a :: b :: toks) b eq_refl eq_refl).
    destruct (Py.mem (Py.lower b) stars_count) eqn:Hm; [|reflexivity].
    apply mem_index in Hm. destruct Hm as [i Hi]. now rewrite Hi.
Qed.

Lemma rating_mode_raises_witness :
  _set_dict_value default_data "rating"
    (Some (Tag "p" (Some ["star-rating"]) None [])) "rating"
  = (default_data, Raise IndexError)
  /\ snd (_set_dict_value default_data "rating"
            (Some (Tag "p" (Some ["star-rating"; "Five"]) None [])) "rating")
     = Ok tt.
Proof.
  split.
  - apply (proj1 (proj2 (rating_mode_raises default_data "rating"
                           "p" None []))).
    simpl. lia.
  - apply (proj2 (proj2 (rating_mode_raises default_data "rating"
                           "p" None []))).
    simpl. lia.
Defined.

(** ** The rating node of a product page *)

Lemma prefix_has_char (c : ascii) (sub s : string) :
  String.prefix sub s = true ->
  Py.has_char c sub = true -> Py.has_char c s = true.
Proof.
  revert s. induction sub as [|a sub IH]; intros s.
  - intros _ H. discriminate H.
  - destruct s as [|b s]; cbn [String.prefix Py.has_char]; [discriminate|].
    destruct (ascii_dec a b) as [->|_]; [|discriminate].
    intros Hp H. apply orb_prop in H. destruct H as [H|H].
    + rewrite H. reflexivity.
    + rewrite (IH s Hp H). apply orb_true_r.
Qed.

Lemma contains_unfold (sub : string) (c : ascii) (t : string) :
  Py.contains sub (String c t)
  = (String.prefix sub (String c t) || Py.contains sub t)%bool.
Proof. reflexivity. Qed.

Lemma contains_has_char (c : ascii) (sub s : string) :
  Py.contains sub s = true ->
  Py.has_char c sub = true -> Py.has_char c s = true.
Proof.
  intros Hc Hsub. induction s as [|b t IH].
  - cbn [Py.contains] in Hc. rewrite orb_false_r in Hc.
    now apply (prefix_has_char c sub EmptyString).
  - rewrite contains_unfold in Hc. apply orb_prop in Hc.
    destruct Hc as [Hp|Ht].
    + now apply (prefix_has_char c sub).
    + cbn [Py.has_char]. rewrite (IH Ht). apply orb_true_r.
Qed.

Lemma rating_pattern_second_token (context el : PageElement) :
  get_tag context "p" (CPattern _rating_pattern) = Some el ->
  (forall toks, getitem_class el = Ok toks -> blank_free toks = true) ->
  exists toks tok,
    getitem_class el = Ok toks
    /\ nth_error toks 1 = Some tok
    /\ forall data key,
         snd (_set_dict_value data key (Some el) "rating") = Ok tt.
Proof.
  intros Hget Hfree.
  unfold get_tag in Hget. cbn [truthy] in Hget. unfold find in Hget.
  apply find_some in Hget. destruct Hget as [_ Hm].
  destruct el as [s|n attr href contents]; [discriminate Hm|].
  cbn [tag_matches] in Hm. apply andb_prop in Hm. destruct Hm as [_ Hc].
  destruct attr as [toks|]; [|discriminate Hc].
  specialize (Hfree toks eq_refl). cbn [class_matches] in Hc.
  assert (Hno : forall t, In t toks -> _rating_pattern t = false).
  { intros t Ht. unfold blank_free in Hfree.
    rewrite forallb_forall in Hfree. specialize (Hfree t Ht).
    apply negb_true_iff in Hfree.
    destruct (_rating_pattern t) eqn:E; auto.
    unfold _rating_pattern in E.
    rewrite (contains_has_char " " _ t E eq_refl) in Hfree. discriminate. }
  assert (Hex : existsb _rating_pattern toks = false).
  { destruct (existsb _rating_pattern toks) eqn:E; auto.
    apply existsb_exists in E. destruct E as [t [Ht E]].
    rewrite (Hno t Ht) in E. discriminate. }
  rewrite Hex in Hc. cbn [orb] in Hc.
  destruct toks as [|a [|b toks]].
  - discriminate Hc.
  - cbn [Py.join] in Hc. rewrite (Hno a (or_introl eq_refl)) in Hc.
    discriminate.
  - exists (a :: b :: toks), b. repeat split.
    intros data key.
    rewrite (set_dict_value_rating data key
               (Tag n (Some (a :: b :: toks)) href contents)
               (a :: b :: toks) b eq_refl eq_refl).
    destruct (Py.mem (Py.lower b) stars_count) eqn:Hmem; [|reflexivity].
    apply mem_index in Hmem. destruct Hmem as [i Hi]. now rewrite Hi.
Qed.

(** The paragraph [get_tag] finds for the rating pattern has at least
    two class tokens whenever its tokens hold no blank, as those of a
    parsed document do; so reading its second token never fails. *)
Theorem rating_node_has_second_token (context el : PageElement) :
  get_tag context "p" (CPattern _rating_pattern) = Some el ->
  (forall toks, getitem_class el = Ok toks -> blank_free toks = true) ->
  exists toks tok,
    getitem_class el = Ok toks
    /\ nth_error toks 1 = Some tok
    /\ forall data key,
         snd (_set_dict_value data key (Some el) "rating") = Ok tt.
Proof. apply rating_pattern_second_token. Qed.

Lemma rating_node_has_second_token_witness :
  exists toks tok,
    getitem_class (Sample.leaf "p" (Some ["star-rating"; "Three"]) "")
    = Ok toks
    /\ nth_error toks 1 = Some tok.
Proof.
  destruct (rating_node_has_second_token
              (Sample.product_page "1" ["star-rating"; "Three"])
              (Sample.leaf "p" (Some ["star-rating"; "Three"]) "")
              eq_refl)
    as [toks [tok [H1 [H2 _]]]].
  - intros toks H. inversion H; subst. reflexivity.
  - now exists toks, tok.
Defined.

(** ** Extractions do not depend on the dictionary *)

Lemma set_dict_value_shape (element : option PageElement)
      (data_type : string) :
  exists (found : option pyval) (outcome : res unit),
    forall data key,
      _set_dict_value data key element data_type
      = (match found with
         | Some v => dict_set data key v
         | None => data
         end, outcome).
Proof.
  unfold _set_dict_value.
  destruct element as [el|]; [|now exists None, (Ok tt)].
  destruct (Py.mem data_type ["text"; "number"; "rating"]); cbn [negb];
    [|now exists None, (Ok tt)].
  destruct (String.eqb data_type "text").
  { now exists (Some (VStr (Py.strip (text el)))), (Ok tt). }
  destruct (String.eqb data_type "number").
  { destruct (_number_pattern (text el)) as [m|];
      [|now exists None, (Ok tt)].
    destruct (Py.has_char "." m).
    - unfold bind, lift. destruct (float m) as [q|e].
      + now exists (Some (VFloat q)), (Ok tt).
      + now exists None, (Raise e).
    - unfold bind, lift. destruct (Py.int m) as [z|e].
      + now exists (Some (VInt z)), (Ok tt).
      + now exists None, (Raise e). }
  destruct (String.eqb data_type "rating"); [|now exists None, (Ok tt)].
  unfold bind, lift.
  destruct (getitem_class el) as [cls|e]; [|now exists None, (Raise e)].
  destruct (getitem cls 1) as [tok|e]; [|now exists None, (Raise e)].
  destruct (Py.mem (Py.lower tok) stars_count); [|now exists None, (Ok tt)].
  destruct (Py.index (Py.lower tok) stars_count) as [i|].
  - now exists (Some (VInt i)), (Ok tt).
  - now exists None, (Raise ValueError).
Qed.

Lemma set_dict_value_extracted (data : dict) (key : string)
      (element : option PageElement) (data_type : string) :
  _set_dict_value data key element data_type
  = (match extracted element data_type with
     | Some v => dict_set data key v
     | None => data
     end,
     snd (_set_dict_value [] EmptyString element data_type)).
Proof.
  destruct (set_dict_value_shape element data_type) as [found [outcome H]].
  unfold extracted. rewrite (H [] EmptyString), (H data key).
  now destruct found.
Qed.

(** What a call to the extractor writes, and whether it raises, depends
    on the element and the mode only: on any dictionary and under any
    key it assigns the same value, or assigns nothing, and ends the same
    way. *)
Theorem extraction_independent (element : option PageElement)
        (data_type : string) (data data' : dict) (key key' : string) :
  snd (_set_dict_value data key element data_type)
  = snd (_set_dict_value data' key' element data_type)
  /\ fst (_set_dict_value data key element data_type)
     = match extracted element data_type with
       | Some v => dict_set data key v
       | None => data
       end
  /\ (extracted element data_type <> None ->
      snd (_set_dict_value data key element data_type) = Ok tt).
Proof.
  rewrite (set_dict_value_extracted data key),
          (set_dict_value_extracted data' key').
  cbn [fst snd]. repeat split.
  destruct (set_dict_value_shape element data_type) as [found [outcome H]].
  unfold extracted. rewrite (H [] EmptyString). cbn [fst snd].
  destruct found as [v|]; [|cbn; congruence].
  intros _.
  destruct (set_dict_value_cases [] EmptyString element data_type)
    as [E|[[e E]|[v' [E _]]]]; rewrite (H [] EmptyString) in E;
    inversion E; auto.
Qed.

Lemma extraction_independent_witness :
  snd (_set_dict_value default_data "price"
         (Some (Sample.leaf "p" None "7")) "number") = Ok tt.
Proof.
  apply (proj2 (proj2 (extraction_independent
                         (Some (Sample.leaf "p" None "7")) "number"
                         default_data default_data "price" "price"))).
  discriminate.
Defined.

(** Each field of the Record [get_book_data] returns for a page with
    both containers is what the extraction on that field's own node
    gives, or the field's default when it gives nothing; the additional
    info is the mapping of the table's rows, or empty without a table. *)
Theorem record_fields (w : web) (url : string) (status_code : Z)
        (soup data_root main_data : PageElement) (book : dict) :
  w url = Response status_code soup ->
  containers soup = Some (data_root, main_data) ->
  get_book_data w url = Ok book ->
  dict_get book "title"
  = Some (or_default (extracted (get_tag main_data "h1" no_class) "text")
                     (VStr ""))
  /\ dict_get book "price"
     = Some (or_default
               (extracted (get_tag main_data "p" (CStr "price_color"))
                          "number") (VInt 0))
  /\ dict_get book "rating"
     = Some (or_default
               (extracted (get_tag main_data "p" (CPattern _rating_pattern))
                          "rating") (VInt 0))
  /\ dict_get book "available"
     = Some (or_default
               (extracted
                  (get_tag main_data "p" (CStr "instock availability"))
                  "number") (VInt 0))
  /\ dict_get book "description"
     = Some (or_default (extracted (get_tag data_root "p" no_class) "text")
                        (VStr ""))
  /\ dict_get book "additional_info"
     = Some (VDict
               match get_tag data_root "table" (CStr "table table-striped")
               with
               | Some table => rows_mapping (find_all table "tr")
               | None => []
               end).
Proof.
  intros Hw Hc Hbook. apply get_book_data_inv in Hbook.
  destruct Hbook as [st' [soup' [Hw' [_ Hfill]]]].
  rewrite Hw in Hw'. inversion Hw'; subst st' soup'; clear Hw'.
  destruct (fill_book_data_steps _ _ _ _ _ Hc Hfill)
    as [d1 [d2 [d3 [d4 [d5 [E1 [E2 [E3 [E4 [E5 Hdata]]]]]]]]]].
  rewrite set_dict_value_extracted in E1, E2, E3, E4, E5.
  apply (f_equal fst) in E1, E2, E3, E4, E5.
  cbn [fst] in E1, E2, E3, E4, E5.
  clear Hfill Hc Hw.
  subst book.
  destruct (extracted (get_tag main_data "h1" no_class) "text");
    destruct (extracted (get_tag data_root "p" no_class) "text");
    destruct (extracted (get_tag main_data "p" (CStr "price_color"))
                        "number");
    destruct (extracted
                (get_tag main_data "p" (CStr "instock availability"))
                "number");
    destruct (extracted (get_tag main_data "p" (CPattern _rating_pattern))
                        "rating");
    subst;
    destruct (get_tag data_root "table" (CStr "table table-striped"));
    repeat split; reflexivity.
Qed.

Lemma record_fields_witness :
  dict_get
    (match get_book_data (fun _ => Response 200 Sample.book_page) "u" with
     | Ok book => book
     | Raise _ => []
     end) "price"
  = Some (VFloat (Qmake 5177 100)).
Proof.
  destruct (containers Sample.book_page) as [[root main]|] eqn:Hc;
    [|vm_compute in Hc; discriminate].
  destruct (get_book_data (fun _ => Response 200 Sample.book_page) "u")
    as [book|e] eqn:E; [|vm_compute in E; discriminate].
  rewrite (proj1 (proj2 (record_fields
             (fun _ => Response 200 Sample.book_page) "u"
             200 Sample.book_page root main book eq_refl Hc E))).
  vm_compute in Hc. inversion Hc; subst. reflexivity.
Defined.

(** ** Where the entries of the table mapping come from *)

(** [get_rows] never raises; every entry of the mapping it returns comes
    from a row of the table that has both cells: the key is the text of
    the row's header cell, untrimmed, and the value is the trimmed text
    of its data cell, a string. *)
Theorem get_rows_entries (parent : PageElement) :
  exists rows,
    get_rows parent = Ok rows
    /\ forall k v,
         dict_get rows k = Some v ->
         exists row h c,
           In row (find_all parent "tr")
           /\ header_cell row = Some h
           /\ data_cell row = Some c
           /\ k = text h
           /\ v = VStr (Py.strip (text c)).
Proof.
  exists (rows_mapping (find_all parent "tr")).
  split; [apply get_rows_rows|].
  intros k v. unfold rows_mapping. rewrite rows_lookup.
  unfold last_entry.
  destruct (List.find _ (rev (find_all parent "tr"))) as [row|] eqn:E;
    [|discriminate].
  apply find_some in E. destruct E as [Hin E].
  apply in_rev in Hin. unfold row_entry in *.
  destruct (header_cell row) as [h|] eqn:Eh; [|discriminate].
  destruct (data_cell row) as [c|] eqn:Ec; [|discriminate].
  apply String.eqb_eq in E. cbn [option_map snd].
  intros H; inversion H; subst.
  now exists row, h, c.
Qed.

Lemma get_rows_entries_witness :
  exists rows,
    get_rows Sample.twice = Ok rows
    /\ exists row h c,
         In row (find_all Sample.twice "tr")
         /\ header_cell row = Some h
         /\ data_cell row = Some c
         /\ "UPC" = text h
         /\ VStr "first" = VStr (Py.strip (text c)).
Proof.
  destruct (get_rows_entries Sample.twice) as [rows [Hr H]].
  exists rows. split; [exact Hr|].
  apply H. rewrite get_rows_rows in Hr. inversion Hr; subst. reflexivity.
Defined.

(** ** The page count is read off the indicator *)

Lemma pages_pattern_sound (s ds : string) :
  pages_pattern s = Some ds ->
  exists pre rest,
    s = pre ++ "of " ++ ds ++ rest
    /\ ds <> EmptyString
    /\ Py.all_chars Py.is_digit ds = true
    /\ stops Py.is_digit rest.
Proof.
  induction s as [|c t IH]; [discriminate|].
  rewrite pages_pattern_unfold.
  assert (Hrec : pages_pattern t = Some ds ->
                 exists pre rest,
                   String c t = pre ++ "of " ++ ds ++ rest
                   /\ ds <> EmptyString
                   /\ Py.all_chars Py.is_digit ds = true
                   /\ stops Py.is_digit rest).
  { intros H. destruct (IH H) as [pre [rest [-> Hrest]]].
    now exists (String c pre), rest. }
  destruct (String.prefix "of " (String c t)) eqn:Ep; [|exact Hrec].
  destruct (Py.take_while Py.is_digit (Py.skip 3 (String c t)))
    as [|d x] eqn:Ed; [exact Hrec|].
  intros H. injection H as <-.
  apply prefix_app in Ep. cbn [String.length] in Ep.
  destruct (take_while_split Py.is_digit (Py.skip 3 (String c t)))
    as [rest [Hsplit [Hall Hrest]]].
  rewrite Ed in Hsplit, Hall.
  exists EmptyString, rest. repeat split; auto; [|discriminate].
  rewrite Ep at 1. now rewrite Hsplit at 1.
Qed.

Lemma int_acc_nonneg (s : string) (acc : Z) :
  Py.all_chars Py.is_digit s = true -> 0 <= acc -> 0 <= Py.int_acc acc s.
Proof.
  revert acc. induction s as [|c t IH]; intros acc; cbn [Py.all_chars Py.int_acc];
    auto.
  intros H Hacc. apply andb_prop in H. destruct H as [Hc Ht].
  apply IH; auto. unfold Py.is_digit in Hc. apply andb_prop in Hc.
  destruct Hc as [Hlo _]. apply N.leb_le in Hlo.
  unfold Py.digit_val. lia.
Qed.

(** The page count, whenever one is returned, is never negative, and a
    count other than 0 is always the integer spelled by the digits that
    follow an ["of "] in the text of the indicator node of a page 1 that
    was fetched. *)
Theorem pages_count_from_indicator (w : web) (pages_count : Z) :
  _get_pages_count w = Ok pages_count ->
  0 <= pages_count
  /\ (pages_count <> 0 ->
      exists soup counter_elem pre ds rest,
        _get_page_soup w 1 = Ok soup
        /\ get_tag soup "li" (CStr "current") = Some counter_elem
        /\ text counter_elem = pre ++ "of " ++ ds ++ rest
        /\ ds <> EmptyString
        /\ Py.all_chars Py.is_digit ds = true
        /\ stops Py.is_digit rest
        /\ (String.length ds <= Py.max_str_digits)%nat
        /\ pages_count = Py.int_value ds).
Proof.
  unfold _get_pages_count.
  destruct (_get_page_soup w 1) as [soup|e] eqn:Es;
    [|intros H; injection H as <-; split; [lia|congruence]].
  destruct (get_tag soup "li" (CStr "current")) as [el|] eqn:Eli;
    [|intros H; injection H as <-; split; [lia|congruence]].
  destruct (pages_pattern (text el)) as [ds|] eqn:E;
    [|intros H; injection H as <-; split; [lia|congruence]].
  destruct (pages_pattern_sound _ _ E) as [pre [rest [Ht [Hne [Hd Hr]]]]].
  intros Hi. destruct (int_outcome ds _ Hi) as [[Hv Hlen]|[Hv _]];
    [|discriminate].
  injection Hv as ->. split.
  - apply int_acc_nonneg; [exact Hd | lia].
  - intros _. exists soup, el, pre, ds, rest.
    repeat (split; [assumption || reflexivity|]). reflexivity.
Qed.

Lemma pages_count_from_indicator_witness :
  exists soup counter_elem pre ds rest,
    _get_page_soup Sample.shop 1 = Ok soup
    /\ get_tag soup "li" (CStr "current") = Some counter_elem
    /\ text counter_elem = pre ++ "of " ++ ds ++ rest
    /\ ds <> EmptyString
    /\ Py.all_chars Py.is_digit ds = true
    /\ stops Py.is_digit rest
    /\ (String.length ds <= Py.max_str_digits)%nat
    /\ 1 = Py.int_value ds.
Proof.
  apply (proj2 (pages_count_from_indicator Sample.shop 1 eq_refl)).
  discriminate.
Defined.

(** ** The page worker, heading by heading *)

(** [parse_headings] on two runs of headings: the records of the first
    run come first; the second run is parsed only when the first ended
    normally, and when the first raised, what it had appended stays and
    the rest of the page is not parsed. *)
Theorem parse_headings_app (w : web) (first rest : list PageElement) :
  parse_headings w (first ++ rest)%list
  = match snd (parse_headings w first) with
    | Ok _ =>
        ((fst (parse_headings w first) ++ fst (parse_headings w rest))%list,
         snd (parse_headings w rest))
    | Raise e => (fst (parse_headings w first), Raise e)
    end.
Proof.
  induction first as [|heading first IH]; cbn [app parse_headings].
  - cbn [fst snd app]. now destruct (parse_headings w rest).
  - destruct (get_tag heading "a" no_class) as [link|]; [|exact IH].
    destruct (getitem_href link) as [href|e]; [|reflexivity].
    destruct (String.eqb href EmptyString); [exact IH|].
    destruct (get_book_data w (_root_url ++ href)) as [book|e];
      [|reflexivity].
    rewrite IH.
    destruct (parse_headings w first) as [books [[]|e]]; cbn [fst snd];
      [|reflexivity].
    now destruct (parse_headings w rest).
Qed.

(** ** Batches *)

Lemma range_from_length (n : nat) (start step : Z) :
  List.length (range_from n start step) = n.
Proof.
  revert start. induction n as [|n IH]; intros start; simpl; auto.
Qed.

Lemma range_from_In (n : nat) (start step s : Z) :
  In s (range_from n start step) ->
  exists i, (i < n)%nat /\ s = start + step * Z.of_nat i.
Proof.
  revert start. induction n as [|n IH]; intros start; cbn [range_from In].
  - intros [].
  - intros [<-|H].
    + exists O. split; lia.
    + destruct (IH _ H) as [i [Hi ->]]. exists (S i). split; lia.
Qed.

Lemma range_from_seq (n a : nat) :
  range_from n (Z.of_nat a) 1 = map Z.of_nat (seq a n).
Proof.
  revert a. induction n as [|n IH]; intros a; cbn [range_from seq map]; auto.
  f_equal. rewrite <- IH. f_equal. lia.
Qed.

Lemma catalogue_pages_seq (pages_count : Z) :
  catalogue_pages pages_count
  = map Z.of_nat (seq 1 (Z.to_nat pages_count)).
Proof.
  unfold catalogue_pages, range. rewrite Z.div_1_r.
  rewrite <- (range_from_seq (Z.to_nat pages_count) 1).
  f_equal; lia.
Qed.

(** The batches of [scrape_books], one after the other, list each page
    from 1 to the page count exactly once and in order; every batch
    holds at least one page and at most 25. *)
Theorem batches_partition (pages_count : Z) :
  let batches :=
    map (fun page_number =>
           batch_pages (range 0 threads_number 1) page_number pages_count)
        (range 1 (pages_count + 1) threads_number) in
  List.concat batches = map Z.of_nat (seq 1 (Z.to_nat pages_count))
  /\ Forall (fun b => (1 <= List.length b <= 25)%nat) batches.
Proof.
  cbv zeta. split.
  - rewrite batches_are_the_pages. apply catalogue_pages_seq.
  - apply Forall_forall. intros b Hb. apply in_map_iff in Hb.
    destruct Hb as [s [<- Hs]]. unfold range, threads_number in Hs.
    apply range_from_In in Hs. destruct Hs as [i [Hi ->]].
    rewrite batch_pages_25, range_from_length.
    assert (Hq : 25 * ((pages_count + 1 - 1 + 25 - 1) / 25)
                 <= pages_count + 1 - 1 + 25 - 1)
      by (apply Z.mul_div_le; lia).
    assert (Hn : 0 < (pages_count + 1 - 1 + 25 - 1) / 25) by lia.
    lia.
Qed.

(** ** The result does not depend on the schedule *)

(** Two runs against the same site end the same way: both raise the
    same exception, or both return, and then they return the same
    Records with the same multiplicities, however the workers were
    interleaved and whether or not the result was saved. *)
Theorem scrape_books_same_records
        (schedule schedule' : Z -> list (list dict) -> list dict)
        (float_repr float_repr' : Q -> string) (current_dir current_dir' : string)
        (w : web) (is_save is_save' : bool) (fs fs' : files) :
  (forall page contributions,
      Interleave contributions (schedule page contributions)) ->
  (forall page contributions,
      Interleave contributions (schedule' page contributions)) ->
  match fst (scrape_books schedule float_repr current_dir w is_save fs),
        fst (scrape_books schedule' float_repr' current_dir' w is_save' fs')
  with
  | Ok books, Ok books' => Permutation books books'
  | Raise e, Raise e' => e = e'
  | _, _ => False
  end.
Proof.
  intros Hs Hs'. unfold scrape_books.
  destruct (_get_pages_count w) as [pages_count|e]; [|reflexivity].
  assert (G : Permutation
            (fold_left (run_batch schedule w pages_count)
                       (range 1 (pages_count + 1) threads_number) [])
            (fold_left (run_batch schedule' w pages_count)
                       (range 1 (pages_count + 1) threads_number) [])).
  { rewrite (run_batches_Permutation schedule Hs w pages_count _ []).
    symmetry. apply (run_batches_Permutation schedule' Hs'). }
  destruct is_save, is_save'; exact G.
Qed.

Lemma reversed_batch_Interleave {A : Type} (ls : list (list A)) :
  Interleave ls (List.concat (rev ls)).
Proof.
  induction ls as [|l ls IH]; cbn [rev].
  - constructor. constructor.
  - rewrite concat_app. cbn [List.concat]. rewrite app_nil_r.
    revert IH. generalize (List.concat (rev ls)) as m. intros m IH.
    induction IH as [ls Hnil | ls1 x l0 ls2 m _ IH].
    + cbn [app]. induction l as [|x l IHl].
      * constructor. now constructor.
      * apply (Interleave_step [] x l ls). exact IHl.
    + cbn [app]. apply (Interleave_step (l :: ls1) x l0 ls2). exact IH.
Qed.

Lemma scrape_books_same_records_witness :
  match fst (scrape_books one_by_one Sample.some_repr "/srv/app"
                          Sample.open_shop false Sample.no_files),
        fst (scrape_books (fun _ ls => List.concat (rev ls)) Sample.some_repr
                          "/tmp" Sample.open_shop true Sample.no_files)
  with
  | Ok books, Ok books' => Permutation books books'
  | Raise e, Raise e' => e = e'
  | _, _ => False
  end.
Proof.
  apply scrape_books_same_records.
  - intros page contributions. apply Interleave_concat.
  - intros page contributions. apply reversed_batch_Interleave.
Defined.

(** ** The records of one page keep their order *)

Lemma Subseq_refl {A : Type} (l : list A) : Subseq l l.
Proof.
  induction l as [|x l IH]; [apply Subseq_nil | now apply Subseq_take].
Qed.

Lemma Subseq_app_r {A : Type} (l a m : list A) :
  Subseq l m -> Subseq l (a ++ m).
Proof.
  intros H. induction a; cbn [app]; [exact H | now apply Subseq_skip].
Qed.

Lemma Subseq_app_l {A : Type} (l m b : list A) :
  Subseq l m -> Subseq l (m ++ b).
Proof.
  induction 1 as [m | l x m _ IH | l x m _ IH]; cbn [app].
  - apply Subseq_nil.
  - now apply Subseq_skip.
  - now apply Subseq_take.
Qed.

Lemma Interleave_Subseq {A : Type} (ls : list (list A)) (m l : list A) :
  Interleave ls m -> In l ls -> Subseq l m.
Proof.
  intros H. revert l. induction H as [ls Hnil | ls1 x l0 ls2 m _ IH].
  - intros l Hl. rewrite Forall_forall in Hnil. rewrite (Hnil l Hl).
    apply Subseq_nil.
  - intros l Hl. apply in_app_or in Hl. destruct Hl as [Hl|[<-|Hl]].
    + apply Subseq_skip. apply IH. apply in_or_app. now left.
    + apply Subseq_take. apply IH. apply in_or_app. right. now left.
    + apply Subseq_skip. apply IH. apply in_or_app. right. now right.
Qed.

Section PageOrder.

Variable schedule : Z -> list (list dict) -> list dict.
Hypothesis schedule_interleaves :
  forall page contributions,
    Interleave contributions (schedule page contributions).

Lemma run_batches_keep (w : web) (pages_count : Z) (starts : list Z)
      (acc l : list dict) :
  Subseq l acc ->
  Subseq l (fold_left (run_batch schedule w pages_count) starts acc).
Proof.
  revert acc. induction starts as [|s starts IH]; intros acc H; cbn [fold_left].
  - exact H.
  - apply IH. unfold run_batch. now apply Subseq_app_l.
Qed.

Lemma run_batches_page (w : web) (pages_count : Z) (starts : list Z)
      (acc : list dict) (s p : Z) :
  In s starts ->
  In p (batch_pages (range 0 threads_number 1) s pages_count) ->
  Subseq (page_books w p)
         (fold_left (run_batch schedule w pages_count) starts acc).
Proof.
  revert acc. induction starts as [|s0 starts IH]; intros acc Hs Hp.
  - destruct Hs.
  - cbn [fold_left]. destruct Hs as [->|Hs].
    + apply run_batches_keep. unfold run_batch. apply Subseq_app_r.
      apply (Interleave_Subseq _ _ _ (schedule_interleaves s _)).
      rewrite map_map. apply in_map_iff. now exists p.
    + now apply IH.
Qed.

End PageOrder.

(** Whatever the interleaving, when the page count could be read the run
    returns and the Records of each catalogue page appear in its result
    in the order of the page's items. *)
Theorem page_order_kept
        (schedule : Z -> list (list dict) -> list dict)
        (float_repr : Q -> string) (current_dir : string)
        (w : web) (is_save : bool) (fs : files)
        (pages_count page_number : Z) :
  (forall page contributions,
      Interleave contributions (schedule page contributions)) ->
  _get_pages_count w = Ok pages_count ->
  1 <= page_number <= pages_count ->
  exists books,
    fst (scrape_books schedule float_repr current_dir w is_save fs) = Ok books
    /\ Subseq (page_books w page_number) books.
Proof.
  intros Hs Hc Hp.
  assert (Hin : In page_number (catalogue_pages pages_count)).
  { rewrite catalogue_pages_seq.
    apply in_map_iff. exists (Z.to_nat page_number). split; [lia|].
    apply in_seq. lia. }
  rewrite <- batches_are_the_pages in Hin.
  apply in_concat in Hin. destruct Hin as [b [Hb Hin]].
  apply in_map_iff in Hb. destruct Hb as [s [<- Hs']].
  exists (fold_left (run_batch schedule w pages_count)
                    (range 1 (pages_count + 1) threads_number) []).
  split.
  - unfold scrape_books. rewrite Hc. now destruct is_save.
  - apply (run_batches_page schedule Hs w _ _ [] s page_number Hs' Hin).
Qed.

Lemma page_order_kept_witness :
  exists books,
    fst (scrape_books one_by_one Sample.some_repr "/srv/app"
                      Sample.open_shop false Sample.no_files) = Ok books
    /\ Subseq (page_books Sample.open_shop 1) books.
Proof.
  apply (page_order_kept one_by_one Sample.some_repr "/srv/app"
           Sample.open_shop false Sample.no_files 1 1).
  - intros page contributions. apply Interleave_concat.
  - reflexivity.
  - lia.
Defined.

(** ** What is written for a string *)

Lemma escape_char_printable (c : ascii) :
  Py.all_chars printable (Json.escape_char c) = true.
Proof.
  destruct c as [[] [] [] [] [] [] [] []]; reflexivity.
Qed.

(** The JSON text written for a string holds printable ASCII characters
    only, whatever characters the string holds: quotes, backslashes,
    control characters and characters beyond ASCII are all escaped. *)
Theorem encode_string_printable (s : string) :
  Py.all_chars printable (Json.encode_string s) = true.
Proof.
  unfold Json.encode_string. rewrite !all_chars_app.
  assert (H : Py.all_chars printable (Json.escape s) = true).
  { induction s as [|c t IH]; [reflexivity|].
    cbn [Json.escape]. rewrite all_chars_app, escape_char_printable, IH.
    reflexivity. }
  rewrite H. reflexivity.
Qed.

(** ** A catalogue that cannot be read *)

Lemma no_batches_when_zero : range 1 (0 + 1) threads_number = [].
Proof. reflexivity. Qed.

(** When page 1 of the catalogue cannot be fetched, or answers with an
    error status, [scrape_books] returns the empty list under every
    schedule, and with saving requested the file then holds [[]]. *)
Theorem scrape_books_unreadable_catalogue
        (schedule : Z -> list (list dict) -> list dict)
        (float_repr : Q -> string) (current_dir : string)
        (w : web) (is_save : bool) (fs : files) :
  (w (page_url 1) = Unreachable
   \/ exists status_code soup,
        w (page_url 1) = Response status_code soup
        /\ 400 <= status_code < 600) ->
  fst (scrape_books schedule float_repr current_dir w is_save fs) = Ok []
  /\ (is_save = true ->
      snd (scrape_books schedule float_repr current_dir w is_save fs)
          (path_join current_dir "books_data.txt") = Some "[]").
Proof.
  intros H.
  assert (Hc : _get_pages_count w = Ok 0).
  { unfold _get_pages_count, _get_page_soup, requests_get.
    destruct H as [->|[st [soup [-> Hst]]]]; [reflexivity|].
    cbn [res_bind]. unfold raise_for_status.
    replace (Z.leb 400 st) with true by (symmetry; apply Z.leb_le; lia).
    replace (Z.ltb st 600) with true by (symmetry; apply Z.ltb_lt; lia).
    reflexivity. }
  unfold scrape_books. rewrite Hc, no_batches_when_zero. cbn [fold_left].
  destruct is_save; cbn [fst snd]; split; auto; try discriminate.
  intros _. unfold write_file, file_path. now rewrite String.eqb_refl.
Qed.

Lemma scrape_books_unreadable_catalogue_witness :
  fst (scrape_books one_by_one Sample.some_repr "/srv/app"
                    (fun _ => Response 503 (Sample.document []))
                    true Sample.no_files) = Ok [].
Proof.
  apply (scrape_books_unreadable_catalogue one_by_one Sample.some_repr
           "/srv/app" (fun _ => Response 503 (Sample.document []))
           true Sample.no_files).
  right. exists 503, (Sample.document []). split; [reflexivity | lia].
Defined.

(** ** When [get_book_data] returns *)

Lemma text_mode_ok (data : dict) (key : string)
      (element : option PageElement) :
  snd (_set_dict_value data key element "text") = Ok tt.
Proof. now destruct element. Qed.

Lemma number_mode_ok (data : dict) (key : string)
      (element : option PageElement) :
  (forall el m,
      element = Some el ->
      _number_pattern (text el) = Some m -> convertible m) ->
  snd (_set_dict_value data key element "number") = Ok tt.
Proof.
  intros H. destruct element as [el|]; [|reflexivity].
  rewrite set_dict_value_number.
  destruct (_number_pattern (text el)) as [m|] eqn:Em; [|reflexivity].
  destruct (H el m eq_refl Em) as [Hpoint Hplain].
  destruct (Py.has_char "." m) eqn:Hp.
  - destruct (Hpoint eq_refl) as (ip & fp & -> & Hi & Hf & Hne).
    now rewrite float_decimal.
  - now rewrite (int_within_limit m (Hplain eq_refl)).
Qed.

Lemma rating_mode_ok (data : dict) (key : string) (context : PageElement) :
  (forall el toks,
      get_tag context "p" (CPattern _rating_pattern) = Some el ->
      getitem_class el = Ok toks -> blank_free toks = true) ->
  snd (_set_dict_value data key
         (get_tag context "p" (CPattern _rating_pattern)) "rating") = Ok tt.
Proof.
  intros H.
  destruct (get_tag context "p" (CPattern _rating_pattern)) as [el|] eqn:E;
    [|reflexivity].
  destruct (rating_pattern_second_token context el E
              (fun toks Ht => H el toks eq_refl Ht))
    as [toks [tok [_ [_ Hok]]]].
  apply Hok.
Qed.

Lemma containers_inv (soup data_root main_data : PageElement) :
  containers soup = Some (data_root, main_data) ->
  get_tag soup "article" (CStr "product_page") = Some data_root
  /\ get_tag data_root "div" (CPattern _main_data_pattern) = Some main_data.
Proof.
  unfold containers.
  destruct (get_tag soup "article" (CStr "product_page")) as [root|];
    [|discriminate].
  destruct (get_tag root "div" (CPattern _main_data_pattern)) as [main|] eqn:E;
    [|discriminate].
  intros H; inversion H; subst. now split.
Qed.

Ltac extraction_step H :=
  rewrite set_dict_value_extracted; rewrite H; cbv beta iota.

(** [get_book_data] returns a complete Record for a page it could fetch
    whenever the runs of digits and points it finds in the price and in
    the availability paragraph can be converted (digits, one point,
    digits, or digits alone within the digit limit of [int]), and the
    class tokens of the rating paragraph hold no blank. *)
Theorem get_book_data_returns (w : web) (url : string) (status_code : Z)
        (soup data_root main_data : PageElement) :
  w url = Response status_code soup ->
  ~ 400 <= status_code < 600 ->
  containers soup = Some (data_root, main_data) ->
  (forall el m,
      get_tag main_data "p" (CStr "price_color") = Some el ->
      _number_pattern (text el) = Some m -> convertible m) ->
  (forall el m,
      get_tag main_data "p" (CStr "instock availability") = Some el ->
      _number_pattern (text el) = Some m -> convertible m) ->
  (forall el toks,
      get_tag main_data "p" (CPattern _rating_pattern) = Some el ->
      getitem_class el = Ok toks -> blank_free toks = true) ->
  exists book, get_book_data w url = Ok book /\ full_record book.
Proof.
  intros Hw Hst Hc Hprice Havail Hrating.
  assert (Hfill : exists book,
             fill_book_data soup default_data = (book, Ok tt)).
  { destruct (containers_inv _ _ _ Hc) as [Hroot Hmain].
    unfold fill_book_data. rewrite Hroot, Hmain. unfold bind.
    extraction_step (text_mode_ok [] EmptyString
                       (get_tag main_data "h1" no_class)).
    extraction_step (text_mode_ok [] EmptyString
                       (get_tag data_root "p" no_class)).
    extraction_step (number_mode_ok [] EmptyString
                       (get_tag main_data "p" (CStr "price_color")) Hprice).
    extraction_step (number_mode_ok [] EmptyString
                       (get_tag main_data "p" (CStr "instock availability"))
                       Havail).
    extraction_step (rating_mode_ok [] EmptyString main_data Hrating).
    destruct (get_tag data_root "table" (CStr "table table-striped"))
      as [table|].
    - unfold lift, store. rewrite get_rows_rows. cbv beta iota.
      eexists. reflexivity.
    - unfold ret. eexists. reflexivity. }
  destruct Hfill as [book Hfill]. exists book. split.
  - unfold get_book_data, requests_get. rewrite Hw. cbn [res_bind].
    unfold raise_for_status.
    destruct (Z.leb 400 status_code && Z.ltb status_code 600)%bool eqn:E.
    + apply andb_prop in E. destruct E as [E1 E2].
      apply Z.leb_le in E1. apply Z.ltb_lt in E2. lia.
    + cbn [res_bind]. now rewrite Hfill.
  - now apply fill_book_data_full in Hfill.
Qed.

Lemma get_book_data_returns_witness :
  exists book,
    get_book_data (fun _ => Response 200 Sample.book_page) "u" = Ok book
    /\ full_record book.
Proof.
  destruct (containers Sample.book_page) as [[root main]|] eqn:Hc;
    [|vm_compute in Hc; discriminate].
  apply (get_book_data_returns (fun _ => Response 200 Sample.book_page) "u"
           200 Sample.book_page root main eq_refl);
    [lia | exact Hc | | | ];
    vm_compute in Hc; inversion Hc; subst; clear Hc.
  - intros el m H1 H2. vm_compute in H1. inversion H1; subst.
    vm_compute in H2. inversion H2; subst. split.
    + intros _. exists "51", "77". repeat split; discriminate.
    + intros H3. vm_compute in H3. discriminate.
  - intros el m H1 H2. vm_compute in H1. inversion H1; subst.
    vm_compute in H2. inversion H2; subst. split.
    + intros H3. vm_compute in H3. discriminate.
    + intros _. unfold Py.max_str_digits. simpl. lia.
  - intros el toks H1 H2. vm_compute in H1. inversion H1; subst.
    inversion H2; subst. reflexivity.
Defined.

(** ** Numbers are never negative *)

Lemma number_chars_without_point (m : string) :
  Py.all_chars is_number_char m = true ->
  Py.has_char "." m = false ->
  Py.all_chars Py.is_digit m = true.
Proof.
  induction m as [|c t IH]; cbn [Py.all_chars Py.has_char]; auto.
  intros H Hp. apply andb_prop in H. destruct H as [Hc Ht].
  apply orb_false_elim in Hp. destruct Hp as [Hpc Hpt].
  rewrite (IH Ht Hpt). unfold is_number_char in Hc.
  rewrite Ascii.eqb_sym, Hpc, orb_false_r in Hc. now rewrite Hc.
Qed.

Lemma float_nonneg (m : string) (q : Q) :
  float m = Ok q -> (0 <= q)%Q.
Proof.
  unfold float.
  destruct (take_while_split Py.is_digit m) as [_ [_ [Hip _]]].
  destruct (Py.all_chars Py.is_digit
              (Py.skip 1 (Py.drop_while Py.is_digit m))) eqn:Hfp;
    [|discriminate].
  destruct (negb _); [|discriminate].
  cbn [andb].
  assert (Hn : 0 <= Py.int_value
                      (Py.take_while Py.is_digit m
                       ++ Py.skip 1 (Py.drop_while Py.is_digit m))).
  { apply int_acc_nonneg; [|lia]. now rewrite all_chars_app, Hip, Hfp. }
  match goal with
  | |- Ok (Qred ?t) = _ -> _ => set (x := t)
  end.
  assert (Hx : (0 <= x)%Q).
  { unfold x, Qle. cbn [Qnum Qden]. lia. }
  clearbody x. intros H.
  assert (Hq : q = Qred x) by congruence.
  rewrite Hq. apply (Qle_trans _ _ _ Hx).
  apply Qle_lteq. right. symmetry. apply Qred_correct.
Qed.

(** The number written in numeric mode is never negative: a sign before
    the digits is not part of the run, so an integer is at least 0 and
    so is a float. *)
Theorem number_never_negative (el : PageElement) (v : pyval) :
  extracted (Some el) "number" = Some v ->
  match v with
  | VInt z => 0 <= z
  | VFloat q => (0 <= q)%Q
  | _ => False
  end.
Proof.
  unfold extracted. rewrite set_dict_value_number.
  destruct (_number_pattern (text el)) as [m|] eqn:Em; [|discriminate].
  destruct (number_pattern_sound _ _ Em) as [_ [Hall _]].
  destruct (Py.has_char "." m) eqn:Hp.
  - destruct (float m) as [q|e] eqn:Ef; [|discriminate].
    cbn [fst dict_set dict_get]. rewrite String.eqb_refl.
    intros H; injection H as <-. now apply float_nonneg in Ef.
  - destruct (Py.int m) as [z|e] eqn:Ei; [|discriminate].
    cbn [fst dict_set dict_get]. rewrite String.eqb_refl.
    intros H; injection H as <-.
    destruct (int_outcome m _ Ei) as [[Hz _]|[Hz _]]; [|discriminate].
    injection Hz as ->.
    apply int_acc_nonneg; [|lia]. now apply number_chars_without_point.
Qed.

Lemma number_never_negative_witness : 0 <= 5.
Proof.
  apply (number_never_negative (Sample.leaf "p" None "-5 degrees") (VInt 5)).
  reflexivity.
Defined.
